(** * google-calendar-mcp-server: the tool-dispatch layer of [src/index.ts]

    A shallow embedding of the class [GoogleCalendarMCPServer]: the
    environment-driven OAuth2 set-up, the tool catalog, the
    [CallToolRequestSchema] handler with its [try]/[catch] boundary, and the
    three tool handlers.  The googleapis / google-auth-library client is an
    external collaborator and is taken as a parameter ([GoogleApi]). *)

From Stdlib Require Import String Ascii List ZArith Bool.
From Stdlib Require Import DecimalString.
Import ListNotations.
Open Scope string_scope.
Set Warnings "-register-all".

(** ** Characters that string literals cannot spell conveniently *)

Definition dquote_char : ascii := ascii_of_nat 34.
Definition backslash_char : ascii := ascii_of_nat 92.
Definition nl : string := String (ascii_of_nat 10) EmptyString.
Definition str1 (c : ascii) : string := String c EmptyString.

(** Spells a literal that holds double quotes: every apostrophe of [s]
    stands for one. *)
Fixpoint with_dquotes (s : string) : string :=
  match s with
  | EmptyString => EmptyString
  | String c rest =>
      String (if Nat.eqb (nat_of_ascii c) 39 then dquote_char else c)
             (with_dquotes rest)
  end.

(** ** JavaScript values

    [args] is typed [any] in the source; the values that can reach the
    handlers are the JSON ones plus [undefined].  Numbers are restricted to
    integers.  An object is its property list in property order; a lookup
    takes the first binding of a key. *)

Inductive JsValue : Type :=
| JUndefined
| JNull
| JBool (b : bool)
| JNum (n : Z)
| JStr (s : string)
| JArr (xs : list JsValue)
| JObj (fields : list (string * JsValue)).

(** [T | null | undefined], the shape of every optional member of the
    googleapis response types. *)
Inductive Nullable (A : Type) : Type :=
| Undefined
| Null
| Have (a : A).
Arguments Undefined {A}.
Arguments Null {A}.
Arguments Have {A} a.

Definition js_of_string (o : Nullable string) : JsValue :=
  match o with
  | Undefined => JUndefined
  | Null => JNull
  | Have s => JStr s
  end.

(** ToBoolean. *)
Definition truthy (v : JsValue) : bool :=
  match v with
  | JUndefined | JNull => false
  | JBool b => b
  | JNum n => negb (n =? 0)%Z
  | JStr s => negb (s =? EmptyString)
  | JArr _ | JObj _ => true
  end.

(** [a || b]. *)
Definition js_or (a b : JsValue) : JsValue := if truthy a then a else b.

Definition string_of_Z (n : Z) : string := NilZero.string_of_int (Z.to_int n).

Fixpoint join (sep : string) (l : list string) : string :=
  match l with
  | [] => EmptyString
  | [x] => x
  | x :: rest => x ++ sep ++ join sep rest
  end.

(** [String(v)], also what a template literal applies to its holes. *)
Fixpoint js_String (v : JsValue) : string :=
  match v with
  | JUndefined => "undefined"
  | JNull => "null"
  | JBool true => "true"
  | JBool false => "false"
  | JNum n => string_of_Z n
  | JStr s => s
  | JArr xs =>
      join ","
        ((fix elems (l : list JsValue) : list string :=
            match l with
            | [] => []
            | x :: rest =>
                match x with
                | JUndefined | JNull => EmptyString
                | _ => js_String x
                end :: elems rest
            end) xs)
  | JObj _ => "[object Object]"
  end.

Definition template_hole (o : Nullable string) : string :=
  js_String (js_of_string o).

(** ** [JSON.stringify(value, null, 2)] *)

Definition hex_digit (n : nat) : ascii :=
  nth n ["0"; "1"; "2"; "3"; "4"; "5"; "6"; "7"; "8"; "9";
         "a"; "b"; "c"; "d"; "e"; "f"]%char "0"%char.

(** QuoteJSONString on one code unit; strings are byte strings here, and
    bytes from 0x80 up pass through. *)
Definition json_escape (c : ascii) : string :=
  let n := nat_of_ascii c in
  if Nat.eqb n 34 then String backslash_char (str1 dquote_char)
  else if Nat.eqb n 92 then String backslash_char (str1 backslash_char)
  else if Nat.eqb n 8 then String backslash_char "b"
  else if Nat.eqb n 12 then String backslash_char "f"
  else if Nat.eqb n 10 then String backslash_char "n"
  else if Nat.eqb n 13 then String backslash_char "r"
  else if Nat.eqb n 9 then String backslash_char "t"
  else if Nat.ltb n 32 then
    String backslash_char
      ("u00" ++ String (hex_digit (n / 16)) (str1 (hex_digit (n mod 16))))
  else str1 c.

Fixpoint json_escape_all (s : string) : string :=
  match s with
  | EmptyString => EmptyString
  | String c rest => json_escape c ++ json_escape_all rest
  end.

Definition json_quote (s : string) : string :=
  String dquote_char (json_escape_all s ++ str1 dquote_char).

(** SerializeJSONProperty with gap two spaces; [None] is the [undefined]
    result (a property holding it is dropped, an array slot prints
    [null]). *)
Fixpoint json_serialize (indent : string) (v : JsValue) : option string :=
  match v with
  | JUndefined => None
  | JNull => Some "null"
  | JBool true => Some "true"
  | JBool false => Some "false"
  | JNum n => Some (string_of_Z n)
  | JStr s => Some (json_quote s)
  | JArr xs =>
      let stepback := indent in
      let indent := indent ++ "  " in
      let partial :=
        (fix elems (l : list JsValue) : list string :=
           match l with
           | [] => []
           | x :: rest =>
               match json_serialize indent x with
               | None => "null"
               | Some s => s
               end :: elems rest
           end) xs in
      match partial with
      | [] => Some "[]"
      | _ => Some ("[" ++ nl ++ indent ++ join ("," ++ nl ++ indent) partial
                     ++ nl ++ stepback ++ "]")
      end
  | JObj fields =>
      let stepback := indent in
      let indent := indent ++ "  " in
      let partial :=
        (fix props (l : list (string * JsValue)) : list string :=
           match l with
           | [] => []
           | (k, x) :: rest =>
               match json_serialize indent x with
               | None => props rest
               | Some s => (json_quote k ++ ": " ++ s) :: props rest
               end
           end) fields in
      match partial with
      | [] => Some "{}"
      | _ => Some ("{" ++ nl ++ indent ++ join ("," ++ nl ++ indent) partial
                     ++ nl ++ stepback ++ "}")
      end
  end.

(** [JSON.stringify(v, null, 2)] where the source uses it: on an array,
    whose serialization is always a string.  The [undefined] result, which
    exists only for a top-level [undefined], is rendered as in a template
    hole. *)
Definition JSON_stringify_2 (v : JsValue) : string :=
  match json_serialize EmptyString v with
  | None => "undefined"
  | Some s => s
  end.

(** ** Thrown values, outcomes and the effect monad

    A [throw] carries any value; the ones the source itself creates are
    [Error] objects ([new Error(msg)], or the engine's [TypeError]). *)

Inductive Thrown : Type :=
| ErrorObject (name message : string)
| NonError (v : JsValue).

Definition new_Error (message : string) : Thrown := ErrorObject "Error" message.
Definition new_TypeError (message : string) : Thrown :=
  ErrorObject "TypeError" message.

Inductive Outcome (A : Type) : Type :=
| Returned (a : A)
| Threw (e : Thrown).
Arguments Returned {A} a.
Arguments Threw {A} e.

(** ** The googleapis surface the handlers use *)

Record Credentials : Type := mkCredentials {
  refresh_token : option string
}.

Record OAuth2Client : Type := mkOAuth2Client {
  _clientId : string;
  _clientSecret : string;
  redirectUri : string;
  credentials : Credentials
}.

Record GenerateAuthUrlOpts : Type := mkAuthUrlOpts {
  access_type : string;
  scope : list string
}.

(** Parameters of [calendar.events.list]. *)
Record ListParams : Type := mkListParams {
  lp_calendarId : JsValue;
  lp_timeMin : JsValue;
  lp_timeMax : JsValue;
  lp_maxResults : JsValue;
  lp_singleEvents : bool;
  lp_orderBy : string
}.

Record EventDateTime : Type := mkEventDateTime {
  edt_dateTime : Nullable string;
  edt_date : Nullable string
}.

Record EventAttendee : Type := mkEventAttendee {
  att_email : Nullable string
}.

(** The members of [Schema$Event] that [listEvents] reads. *)
Record RemoteEvent : Type := mkRemoteEvent {
  ev_id : Nullable string;
  ev_summary : Nullable string;
  ev_start : Nullable EventDateTime;
  ev_end : Nullable EventDateTime;
  ev_description : Nullable string;
  ev_attendees : Nullable (list EventAttendee)
}.

(** [response.data] of [events.list]. *)
Record ListResponse : Type := mkListResponse {
  items : Nullable (list RemoteEvent)
}.

Record PayloadTime : Type := mkPayloadTime {
  pt_dateTime : JsValue;
  pt_timeZone : string
}.

(** The [event] object literal of [createEvent]. *)
Record EventPayload : Type := mkEventPayload {
  pl_summary : JsValue;
  pl_description : JsValue;
  pl_start : PayloadTime;
  pl_end : PayloadTime;
  pl_attendees : JsValue
}.

(** Parameters of [calendar.events.insert]. *)
Record InsertParams : Type := mkInsertParams {
  ip_calendarId : JsValue;
  ip_requestBody : EventPayload
}.

(** [response.data] of [events.insert]. *)
Record InsertResponse : Type := mkInsertResponse {
  ir_id : Nullable string;
  ir_htmlLink : Nullable string
}.

(** A call issued to the calendar client, with the auth object it was bound
    to. *)
Inductive Call : Type :=
| CallList (auth : OAuth2Client) (p : ListParams)
| CallInsert (auth : OAuth2Client) (p : InsertParams).

(** The external collaborator: URL generation is pure; the two calendar
    calls act on the remote state and either return data or throw. *)
Record GoogleApi (S : Type) : Type := mkGoogleApi {
  generateAuthUrl : OAuth2Client -> GenerateAuthUrlOpts -> string;
  events_list : OAuth2Client -> ListParams -> S -> Outcome ListResponse * S;
  events_insert : OAuth2Client -> InsertParams -> S -> Outcome InsertResponse * S
}.
Arguments generateAuthUrl {S} g _ _.
Arguments events_list {S} g _ _ _.
Arguments events_insert {S} g _ _ _.

(** What an invocation can observe and change: the remote calendar, the
    log of calls issued to the client (oldest first), and the clock as
    [new Date().toISOString()] reads it. *)
Record World (S : Type) : Type := mkWorld {
  remote : S;
  calls : list Call;
  clock : string
}.
Arguments mkWorld {S} _ _ _.
Arguments remote {S} w.
Arguments calls {S} w.
Arguments clock {S} w.

Definition M (S A : Type) : Type := World S -> Outcome A * World S.

Definition ret {S A} (a : A) : M S A := fun w => (Returned a, w).
Definition throw {S A} (e : Thrown) : M S A := fun w => (Threw e, w).
Definition bind {S A B} (m : M S A) (k : A -> M S B) : M S B :=
  fun w =>
    match m w with
    | (Returned a, w') => k a w'
    | (Threw e, w') => (Threw e, w')
    end.
(** [try { body } catch (error) { handler }]. *)
Definition try_catch {S A} (body : M S A) (handler : Thrown -> M S A) : M S A :=
  fun w =>
    match body w with
    | (Returned a, w') => (Returned a, w')
    | (Threw e, w') => handler e w'
    end.
Definition lift {S A} (o : Outcome A) : M S A := fun w => (o, w).

Notation "x <- m ;; k" := (bind m (fun x => k))
  (at level 61, m at next level, right associativity).

(** ** Property reads on [args]

    [args.k]: a [TypeError] on [undefined] and [null], the bound value on an
    object, [undefined] otherwise (none of the names the source reads is
    defined on a primitive or on an array). *)

Fixpoint lookup (k : string) (fields : list (string * JsValue)) : JsValue :=
  match fields with
  | [] => JUndefined
  | (k', v) :: rest => if k' =? k then v else lookup k rest
  end.

Definition get_prop (v : JsValue) (k : string) : Outcome JsValue :=
  match v with
  | JUndefined =>
      Threw (new_TypeError
               ("Cannot read properties of undefined (reading '" ++ k ++ "')"))
  | JNull =>
      Threw (new_TypeError
               ("Cannot read properties of null (reading '" ++ k ++ "')"))
  | JObj fields => Returned (lookup k fields)
  | JBool _ | JNum _ | JStr _ | JArr _ => Returned JUndefined
  end.

(** [o?.f]-style access on a typed optional member. *)
Definition opt_chain {A} (o : Nullable A) (f : A -> JsValue) : JsValue :=
  match o with
  | Have a => f a
  | Undefined | Null => JUndefined
  end.

(** ** Process environment and [setupAuth] *)

Record Env : Type := mkEnv {
  GOOGLE_CLIENT_ID : option string;
  GOOGLE_CLIENT_SECRET : option string;
  GOOGLE_REDIRECT_URI : option string;
  GOOGLE_REFRESH_TOKEN : option string
}.

(** Truthiness of an environment entry ([undefined] and the empty string
    are falsy). *)
Definition env_set (v : option string) : bool :=
  match v with
  | Some s => negb (s =? EmptyString)
  | None => false
  end.

Definition env_or (v : option string) (dflt : string) : string :=
  match v with
  | Some s => if s =? EmptyString then dflt else s
  | None => dflt
  end.

Definition setCredentials (c : OAuth2Client) (cr : Credentials) : OAuth2Client :=
  mkOAuth2Client (_clientId c) (_clientSecret c) (redirectUri c) cr.

Definition setupAuth (env : Env) : Outcome OAuth2Client :=
  let clientId := GOOGLE_CLIENT_ID env in
  let clientSecret := GOOGLE_CLIENT_SECRET env in
  let redirectUri := env_or (GOOGLE_REDIRECT_URI env) "urn:ietf:wg:oauth:2.0:oob" in
  if negb (env_set clientId) || negb (env_set clientSecret) then
    Threw (new_Error
      "GOOGLE_CLIENT_ID and GOOGLE_CLIENT_SECRET environment variables are required")
  else
    let oauth2Client :=
      mkOAuth2Client (env_or clientId EmptyString) (env_or clientSecret EmptyString)
        redirectUri (mkCredentials None) in
    let refreshToken := GOOGLE_REFRESH_TOKEN env in
    if env_set refreshToken then
      Returned (setCredentials oauth2Client (mkCredentials refreshToken))
    else Returned oauth2Client.

Record Server : Type := mkServer {
  oauth2Client : OAuth2Client
}.

(** The constructor: a throw here ends the process before any request. *)
Definition new_GoogleCalendarMCPServer (env : Env) : Outcome Server :=
  match setupAuth env with
  | Returned c => Returned (mkServer c)
  | Threw e => Threw e
  end.

(** ** Tool results and the tool catalog *)

Record ContentItem : Type := mkContentItem {
  type : string;
  text : string
}.

(** [isError] is an optional member: [None] when the object literal has
    none. *)
Record ToolResult : Type := mkToolResult {
  content : list ContentItem;
  isError : option bool
}.

Record PropertySchema : Type := mkProperty {
  prop_type : string;
  prop_description : string;
  prop_default : option JsValue;
  prop_items : option string
}.

Record InputSchema : Type := mkInputSchema {
  schema_type : string;
  properties : list (string * PropertySchema);
  required : option (list string)
}.

Record ToolInfo : Type := mkToolInfo {
  name : string;
  description : string;
  inputSchema : InputSchema
}.

(** The [tools] array returned by the [ListToolsRequestSchema] handler. *)
Definition tools : list ToolInfo :=
  [ mkToolInfo "list_events" "List upcoming events from Google Calendar"
      (mkInputSchema "object"
         [ ("calendarId",
            mkProperty "string" "Calendar ID (default: primary)"
              (Some (JStr "primary")) None);
           ("maxResults",
            mkProperty "number" "Maximum number of events to return"
              (Some (JNum 10)) None);
           ("timeMin",
            mkProperty "string" "Lower bound for event start time (ISO 8601)"
              None None);
           ("timeMax",
            mkProperty "string" "Upper bound for event start time (ISO 8601)"
              None None) ]
         None);
    mkToolInfo "create_event" "Create a new event in Google Calendar"
      (mkInputSchema "object"
         [ ("calendarId",
            mkProperty "string" "Calendar ID (default: primary)"
              (Some (JStr "primary")) None);
           ("summary", mkProperty "string" "Event title" None None);
           ("description", mkProperty "string" "Event description" None None);
           ("startDateTime",
            mkProperty "string" "Start date and time (ISO 8601)" None None);
           ("endDateTime",
            mkProperty "string" "End date and time (ISO 8601)" None None);
           ("attendees",
            mkProperty "array" "List of attendee email addresses" None
              (Some "string")) ]
         (Some ["summary"; "startDateTime"; "endDateTime"]));
    mkToolInfo "get_auth_url"
      "Get OAuth2 authorization URL for Google Calendar access"
      (mkInputSchema "object" [] None) ].

Definition ListToolsRequest_handler : list ToolInfo := tools.

(** ** The handlers and the dispatch boundary *)

Record CallToolRequest : Type := mkRequest {
  params_name : string;
  params_arguments : JsValue
}.

Definition calendar_scope : string := "https://www.googleapis.com/auth/calendar".

(** One event of the [events.map(...)] callback in [listEvents]. *)
Definition view_of_event (event : RemoteEvent) : JsValue :=
  JObj
    [ ("id", js_of_string (ev_id event));
      ("summary", js_of_string (ev_summary event));
      ("start",
       js_or (opt_chain (ev_start event) (fun s => js_of_string (edt_dateTime s)))
             (opt_chain (ev_start event) (fun s => js_of_string (edt_date s))));
      ("end",
       js_or (opt_chain (ev_end event) (fun s => js_of_string (edt_dateTime s)))
             (opt_chain (ev_end event) (fun s => js_of_string (edt_date s))));
      ("description", js_of_string (ev_description event));
      ("attendees",
       opt_chain (ev_attendees event)
         (fun l => JArr (map (fun a => js_of_string (att_email a)) l))) ].

(** [args.attendees?.map((email) => ({ email }))]: short-circuits on
    [undefined] and [null], maps an array, and is a [TypeError] on any other
    value, which has no callable [map]. *)
Definition attendees_of_args (v : JsValue) : Outcome JsValue :=
  match v with
  | JUndefined | JNull => Returned JUndefined
  | JArr xs => Returned (JArr (map (fun email => JObj [("email", email)]) xs))
  | JBool _ | JNum _ | JStr _ | JObj _ =>
      Threw (new_TypeError "args.attendees?.map is not a function")
  end.

(** [error instanceof Error ? error.message : String(error)]. *)
Definition thrown_message (error : Thrown) : string :=
  match error with
  | ErrorObject _ message => message
  | NonError v => js_String v
  end.

(** The object literal of the [catch] branch. *)
Definition error_result (error : Thrown) : ToolResult :=
  mkToolResult [ mkContentItem "text" ("Error: " ++ thrown_message error) ]
               (Some true).

Section Handlers.
Variable S : Type.
Variable api : GoogleApi S.
Variable this : Server.

Definition now_toISOString : M S string :=
  fun w => (Returned (clock w), w).

Definition calendar_events_list (p : ListParams) : M S ListResponse :=
  fun w =>
    let (r, s') := events_list api (oauth2Client this) p (remote w) in
    (r, mkWorld s' (calls w ++ [CallList (oauth2Client this) p]) (clock w)).

Definition calendar_events_insert (p : InsertParams) : M S InsertResponse :=
  fun w =>
    let (r, s') := events_insert api (oauth2Client this) p (remote w) in
    (r, mkWorld s' (calls w ++ [CallInsert (oauth2Client this) p]) (clock w)).

Definition getAuthUrl : M S ToolResult :=
  let scopes := [calendar_scope] in
  let authUrl :=
    generateAuthUrl api (oauth2Client this) (mkAuthUrlOpts "offline" scopes) in
  ret (mkToolResult
         [ mkContentItem "text"
             ("Please visit this URL to authorize the application:" ++ nl
              ++ authUrl ++ nl ++ nl
              ++ "After authorization, set the GOOGLE_REFRESH_TOKEN environment variable with the refresh token.") ]
         None).

Definition listEvents (args : JsValue) : M S ToolResult :=
  calendarId <- lift (get_prop args "calendarId") ;;
  timeMin <- lift (get_prop args "timeMin") ;;
  now <- now_toISOString ;;
  timeMax <- lift (get_prop args "timeMax") ;;
  maxResults <- lift (get_prop args "maxResults") ;;
  response <- calendar_events_list
                (mkListParams (js_or calendarId (JStr "primary"))
                              (js_or timeMin (JStr now))
                              timeMax
                              (js_or maxResults (JNum 10))
                              true
                              "startTime") ;;
  let events :=
    match items response with
    | Have l => l
    | Undefined | Null => []
    end in
  ret (mkToolResult
         [ mkContentItem "text"
             (JSON_stringify_2 (JArr (map view_of_event events))) ]
         None).

Definition createEvent (args : JsValue) : M S ToolResult :=
  summary <- lift (get_prop args "summary") ;;
  description <- lift (get_prop args "description") ;;
  startDateTime <- lift (get_prop args "startDateTime") ;;
  endDateTime <- lift (get_prop args "endDateTime") ;;
  attendees_arg <- lift (get_prop args "attendees") ;;
  attendees <- lift (attendees_of_args attendees_arg) ;;
  let event :=
    mkEventPayload summary description
      (mkPayloadTime startDateTime "UTC")
      (mkPayloadTime endDateTime "UTC")
      attendees in
  calendarId <- lift (get_prop args "calendarId") ;;
  response <- calendar_events_insert
                (mkInsertParams (js_or calendarId (JStr "primary")) event) ;;
  ret (mkToolResult
         [ mkContentItem "text"
             ("Event created successfully!" ++ nl
              ++ "Event ID: " ++ template_hole (ir_id response) ++ nl
              ++ "Event Link: " ++ template_hole (ir_htmlLink response)) ]
         None).

(** The [switch] inside the [try] block. *)
Definition dispatch (name : string) (args : JsValue) : M S ToolResult :=
  if name =? "get_auth_url" then getAuthUrl
  else if name =? "list_events" then listEvents args
  else if name =? "create_event" then createEvent args
  else throw (new_Error ("Unknown tool: " ++ name)).

(** The [CallToolRequestSchema] handler. *)
Definition CallToolRequest_handler (request : CallToolRequest) : M S ToolResult :=
  let name := params_name request in
  let args := params_arguments request in
  try_catch (dispatch name args)
            (fun error => ret (error_result error)).

End Handlers.

Arguments getAuthUrl {S} api this.
Arguments listEvents {S} api this args.
Arguments createEvent {S} api this args.
Arguments dispatch {S} api this name args.
Arguments CallToolRequest_handler {S} api this request.

(** ** Declared required fields and defaults

    What the catalog declares, read back by tool name, and the check of an
    arguments value against it.  The source has no such check; these
    definitions only serve to state what the catalog holds and what the
    handlers are given. *)

Definition find_tool (tool : string) : option ToolInfo :=
  find (fun t => name t =? tool) tools.

Definition declared_required (tool : string) : list string :=
  match find_tool tool with
  | Some t =>
      match required (inputSchema t) with
      | Some l => l
      | None => []
      end
  | None => []
  end.

Definition declared_default (tool prop : string) : option JsValue :=
  match find_tool tool with
  | Some t =>
      match find (fun kv => fst kv =? prop) (properties (inputSchema t)) with
      | Some (_, p) => prop_default p
      | None => None
      end
  | None => None
  end.

Definition has_field (args : JsValue) (k : string) : bool :=
  match args with
  | JObj fields => existsb (fun kv => fst kv =? k) fields
  | _ => false
  end.

Definition satisfies_required (tool : string) (args : JsValue) : bool :=
  forallb (has_field args) (declared_required tool).

(** ** Test doubles for the external client

    An in-memory calendar: [events.insert] stores the payload as an event
    and answers with its identifier and link, [events.list] answers with
    everything stored.  [open_api] serves any client; [guarded_api] throws,
    as google-auth-library does, when the client holds no refresh token. *)

Definition string_member (v : JsValue) : Nullable string :=
  match v with
  | JStr s => Have s
  | JNull => Null
  | _ => Undefined
  end.

Definition stored_event (n : nat) (p : EventPayload) : RemoteEvent :=
  mkRemoteEvent
    (Have ("evt" ++ string_of_Z (Z.of_nat n)))
    (string_member (pl_summary p))
    (Have (mkEventDateTime (string_member (pt_dateTime (pl_start p))) Undefined))
    (Have (mkEventDateTime (string_member (pt_dateTime (pl_end p))) Undefined))
    (string_member (pl_description p))
    (match pl_attendees p with
     | JArr xs =>
         Have (map (fun a => mkEventAttendee (string_member (lookup "email"
                      match a with JObj f => f | _ => [] end))) xs)
     | _ => Undefined
     end).

(** The query members google-auth-library puts in the URL, without its
    percent-encoding. *)
Definition plain_auth_url (c : OAuth2Client) (o : GenerateAuthUrlOpts) : string :=
  "https://accounts.google.com/o/oauth2/v2/auth?access_type=" ++ access_type o
  ++ "&scope=" ++ join " " (scope o)
  ++ "&response_type=code&client_id=" ++ _clientId c
  ++ "&redirect_uri=" ++ redirectUri c.

Definition open_api : GoogleApi (list RemoteEvent) :=
  mkGoogleApi (list RemoteEvent)
    plain_auth_url
    (fun _ _ st => (Returned (mkListResponse (Have st)), st))
    (fun _ p st =>
       let ev := stored_event (length st) (ip_requestBody p) in
       (Returned (mkInsertResponse (ev_id ev)
                    (Have ("https://calendar.example/event?eid="
                           ++ template_hole (ev_id ev)))),
        (st ++ [ev])%list)).

Definition no_credentials_error : Thrown :=
  new_Error "No access, refresh token, API key or refresh handler callback is set.".

Definition guarded_api : GoogleApi (list RemoteEvent) :=
  mkGoogleApi (list RemoteEvent)
    plain_auth_url
    (fun c p st =>
       match refresh_token (credentials c) with
       | Some _ => events_list open_api c p st
       | None => (Threw no_credentials_error, st)
       end)
    (fun c p st =>
       match refresh_token (credentials c) with
       | Some _ => events_insert open_api c p st
       | None => (Threw no_credentials_error, st)
       end).

Definition env_configured : Env :=
  mkEnv (Some "client-id") (Some "client-secret") None None.

Definition env_authorized : Env :=
  mkEnv (Some "client-id") (Some "client-secret") None (Some "1//refresh").

Definition client_configured : OAuth2Client :=
  mkOAuth2Client "client-id" "client-secret" "urn:ietf:wg:oauth:2.0:oob"
    (mkCredentials None).

Definition client_authorized : OAuth2Client :=
  mkOAuth2Client "client-id" "client-secret" "urn:ietf:wg:oauth:2.0:oob"
    (mkCredentials (Some "1//refresh")).

Definition server_configured : Server := mkServer client_configured.
Definition server_authorized : Server := mkServer client_authorized.

Definition world0 : World (list RemoteEvent) :=
  mkWorld [] [] "2024-01-01T09:00:00.000Z".

(** ** The calls and results of the handlers in closed form

    What [listEvents] and [createEvent] pass to the client for an arguments
    object, and the result literal they build from the answer; the lemmas
    below relate them to the handlers. *)

Definition list_params_of (fields : list (string * JsValue)) (now : string)
  : ListParams :=
  mkListParams (js_or (lookup "calendarId" fields) (JStr "primary"))
               (js_or (lookup "timeMin" fields) (JStr now))
               (lookup "timeMax" fields)
               (js_or (lookup "maxResults" fields) (JNum 10))
               true "startTime".

Definition list_success (resp : ListResponse) : ToolResult :=
  mkToolResult
    [ mkContentItem "text"
        (JSON_stringify_2
           (JArr (map view_of_event
                    match items resp with
                    | Have l => l
                    | Undefined | Null => []
                    end))) ]
    None.

Definition insert_params_of (fields : list (string * JsValue))
  (attendees : JsValue) : InsertParams :=
  mkInsertParams
    (js_or (lookup "calendarId" fields) (JStr "primary"))
    (mkEventPayload (lookup "summary" fields) (lookup "description" fields)
       (mkPayloadTime (lookup "startDateTime" fields) "UTC")
       (mkPayloadTime (lookup "endDateTime" fields) "UTC")
       attendees).

Definition insert_success (resp : InsertResponse) : ToolResult :=
  mkToolResult
    [ mkContentItem "text"
        ("Event created successfully!" ++ nl
         ++ "Event ID: " ++ template_hole (ir_id resp) ++ nl
         ++ "Event Link: " ++ template_hole (ir_htmlLink resp)) ]
    None.

Definition auth_url_text (url : string) : string :=
  "Please visit this URL to authorize the application:" ++ nl
  ++ url ++ nl ++ nl
  ++ "After authorization, set the GOOGLE_REFRESH_TOKEN environment variable with the refresh token.".

Definition after_call {S} (w : World S) (c : Call) (s' : S) : World S :=
  mkWorld s' (calls w ++ [c]) (clock w).

(** [a.email] of one element of the payload's [attendees] array. *)
Definition email_of (a : JsValue) : JsValue :=
  match a with
  | JObj f => lookup "email" f
  | _ => JUndefined
  end.

(** The message of the [throw] in [setupAuth]. *)
Definition missing_credentials_message : string :=
  "GOOGLE_CLIENT_ID and GOOGLE_CLIENT_SECRET environment variables are required".

(** The properties a handler can read off [args]: those of an object, none
    of any other value that is not [undefined] or [null]. *)
Definition fields_of (args : JsValue) : list (string * JsValue) :=
  match args with
  | JObj f => f
  | _ => []
  end.

Definition nullish (v : JsValue) : bool :=
  match v with
  | JUndefined | JNull => true
  | _ => false
  end.

(** The values [||] replaces: [undefined], [null], [false], [0] and the
    empty string. *)
Definition falsy_value (v : JsValue) : Prop :=
  v = JUndefined \/ v = JNull \/ v = JBool false \/ v = JNum 0 \/
  v = JStr EmptyString.

(** The member of the [events.list] parameters that goes by the name of a
    schema property. *)
Definition list_param_named (p : ListParams) (prop : string) : JsValue :=
  if prop =? "calendarId" then lp_calendarId p
  else if prop =? "timeMin" then lp_timeMin p
  else if prop =? "timeMax" then lp_timeMax p
  else if prop =? "maxResults" then lp_maxResults p
  else JUndefined.

(** A result literal with one text item and no [isError] member. *)
Definition plain_text_result (r : ToolResult) : Prop :=
  exists t, r = mkToolResult [ mkContentItem "text" t ] None.

(** * Properties *)

Section DispatchFacts.
Context {S : Type} (api : GoogleApi S) (this : Server).

(** The [try]/[catch] of the request handler, case by case. *)
Lemma handler_unfold (request : CallToolRequest) (w : World S) :
  CallToolRequest_handler api this request w =
  match dispatch api this (params_name request) (params_arguments request) w with
  | (Returned r, w') => (Returned r, w')
  | (Threw e, w') => (Returned (error_result e), w')
  end.
Proof. reflexivity. Qed.

Lemma getAuthUrl_run (w : World S) :
  getAuthUrl api this w =
  (Returned
     (mkToolResult
        [ mkContentItem "text"
            (auth_url_text
               (generateAuthUrl api (oauth2Client this)
                  (mkAuthUrlOpts "offline" [calendar_scope]))) ]
        None), w).
Proof. reflexivity. Qed.

Lemma listEvents_object (fields : list (string * JsValue)) (w : World S) :
  listEvents api this (JObj fields) w =
  let p := list_params_of fields (clock w) in
  match events_list api (oauth2Client this) p (remote w) with
  | (Returned resp, s') =>
      (Returned (list_success resp),
       after_call w (CallList (oauth2Client this) p) s')
  | (Threw e, s') =>
      (Threw e, after_call w (CallList (oauth2Client this) p) s')
  end.
Proof.
  unfold listEvents, bind, lift, now_toISOString, calendar_events_list, ret.
  cbn [get_prop]. unfold list_params_of, after_call. cbv zeta.
  destruct (events_list api _ _ (remote w)) as [[resp | e] s']; reflexivity.
Qed.

(** With [arguments] omitted from the request ([args] is [undefined]) the
    first property read throws and nothing is sent. *)
Lemma listEvents_undefined (w : World S) :
  listEvents api this JUndefined w =
  (Threw (new_TypeError
            "Cannot read properties of undefined (reading 'calendarId')"), w).
Proof. reflexivity. Qed.

Lemma createEvent_undefined (w : World S) :
  createEvent api this JUndefined w =
  (Threw (new_TypeError
            "Cannot read properties of undefined (reading 'summary')"), w).
Proof. reflexivity. Qed.

Lemma createEvent_object (fields : list (string * JsValue))
      (attendees : JsValue) (w : World S) :
  attendees_of_args (lookup "attendees" fields) = Returned attendees ->
  createEvent api this (JObj fields) w =
  let p := insert_params_of fields attendees in
  match events_insert api (oauth2Client this) p (remote w) with
  | (Returned resp, s') =>
      (Returned (insert_success resp),
       after_call w (CallInsert (oauth2Client this) p) s')
  | (Threw e, s') =>
      (Threw e, after_call w (CallInsert (oauth2Client this) p) s')
  end.
Proof.
  intros Hatt.
  unfold createEvent, bind, lift, calendar_events_insert, ret.
  cbn [get_prop]. rewrite Hatt.
  unfold insert_params_of, after_call. cbv zeta.
  destruct (events_insert api _ _ (remote w)) as [[resp | e] s']; reflexivity.
Qed.

(** A malformed [attendees] stops [createEvent] before the insert. *)
Lemma createEvent_bad_attendees (fields : list (string * JsValue))
      (e : Thrown) (w : World S) :
  attendees_of_args (lookup "attendees" fields) = Threw e ->
  createEvent api this (JObj fields) w = (Threw e, w).
Proof.
  intros Hatt.
  unfold createEvent, bind, lift. cbn [get_prop]. rewrite Hatt. reflexivity.
Qed.

(** Every handler that returns, returns one text item and no [isError]
    member. *)
Lemma listEvents_returns_plain (args : JsValue) (w w' : World S) r :
  listEvents api this args w = (Returned r, w') -> plain_text_result r.
Proof.
  unfold listEvents, bind, lift, now_toISOString, calendar_events_list, ret.
  destruct args; cbn [get_prop]; try discriminate;
    match goal with
    | |- context [events_list api ?c ?p ?s] =>
        destruct (events_list api c p s) as [[resp | e] s']
    end; intros H; inversion H; eexists; reflexivity.
Qed.

Lemma createEvent_returns_plain (args : JsValue) (w w' : World S) r :
  createEvent api this args w = (Returned r, w') -> plain_text_result r.
Proof.
  unfold createEvent, bind, lift, calendar_events_insert, ret.
  destruct args; cbn [get_prop]; try discriminate;
    cbn [attendees_of_args lookup];
    try match goal with
    | |- context [attendees_of_args ?v] =>
        destruct (attendees_of_args v) as [att | e0]; [ | discriminate ]
    end;
    match goal with
    | |- context [events_insert api ?c ?p ?s] =>
        destruct (events_insert api c p s) as [[resp | e] s']
    end; intros H; inversion H; eexists; reflexivity.
Qed.

Lemma dispatch_returns_plain (nm : string) (args : JsValue) (w w' : World S) r :
  dispatch api this nm args w = (Returned r, w') -> plain_text_result r.
Proof.
  unfold dispatch.
  destruct (nm =? "get_auth_url").
  { rewrite getAuthUrl_run. intros H; inversion H. eexists; reflexivity. }
  destruct (nm =? "list_events").
  { apply listEvents_returns_plain. }
  destruct (nm =? "create_event").
  { apply createEvent_returns_plain. }
  discriminate.
Qed.

(** The request handler on the two calendar tools, for an arguments
    object: the client's answer decides the result. *)
Lemma call_list_events_object (fields : list (string * JsValue)) (w : World S) :
  CallToolRequest_handler api this (mkRequest "list_events" (JObj fields)) w =
  match events_list api (oauth2Client this)
          (list_params_of fields (clock w)) (remote w) with
  | (Returned resp, s') =>
      (Returned (list_success resp),
       after_call w
         (CallList (oauth2Client this) (list_params_of fields (clock w))) s')
  | (Threw e, s') =>
      (Returned (error_result e),
       after_call w
         (CallList (oauth2Client this) (list_params_of fields (clock w))) s')
  end.
Proof.
  rewrite handler_unfold. cbn [params_name params_arguments].
  unfold dispatch. cbn [String.eqb Ascii.eqb Bool.eqb].
  rewrite listEvents_object. cbv zeta.
  destruct (events_list api _ _ (remote w)) as [[resp | e] s']; reflexivity.
Qed.

Lemma call_create_event_object (fields : list (string * JsValue))
      (attendees : JsValue) (w : World S) :
  attendees_of_args (lookup "attendees" fields) = Returned attendees ->
  CallToolRequest_handler api this (mkRequest "create_event" (JObj fields)) w =
  match events_insert api (oauth2Client this)
          (insert_params_of fields attendees) (remote w) with
  | (Returned resp, s') =>
      (Returned (insert_success resp),
       after_call w
         (CallInsert (oauth2Client this) (insert_params_of fields attendees)) s')
  | (Threw e, s') =>
      (Returned (error_result e),
       after_call w
         (CallInsert (oauth2Client this) (insert_params_of fields attendees)) s')
  end.
Proof.
  intros Hatt. rewrite handler_unfold. cbn [params_name params_arguments].
  unfold dispatch. cbn [String.eqb Ascii.eqb Bool.eqb].
  rewrite (createEvent_object fields attendees w Hatt). cbv zeta.
  destruct (events_insert api _ _ (remote w)) as [[resp | e] s']; reflexivity.
Qed.
End DispatchFacts.

(** ** Credential states reached by [setupAuth] *)

Lemma setupAuth_missing_credentials (env : Env) :
  env_set (GOOGLE_CLIENT_ID env) = false \/ env_set (GOOGLE_CLIENT_SECRET env) = false ->
  exists e, new_GoogleCalendarMCPServer env = Threw e.
Proof.
  intros H. unfold new_GoogleCalendarMCPServer, setupAuth.
  destruct H as [H | H]; rewrite H; cbn [negb orb].
  - eexists; reflexivity.
  - rewrite orb_true_r. eexists; reflexivity.
Qed.

Lemma setupAuth_refresh_token (env : Env) (c : OAuth2Client) :
  setupAuth env = Returned c ->
  refresh_token (credentials c) =
  if env_set (GOOGLE_REFRESH_TOKEN env) then GOOGLE_REFRESH_TOKEN env else None.
Proof.
  unfold setupAuth.
  destruct (negb (env_set (GOOGLE_CLIENT_ID env))
            || negb (env_set (GOOGLE_CLIENT_SECRET env))); [discriminate|].
  destruct (env_set (GOOGLE_REFRESH_TOKEN env));
    intros H; inversion H; reflexivity.
Qed.

Example setupAuth_configured :
  new_GoogleCalendarMCPServer env_configured = Returned server_configured.
Proof. reflexivity. Qed.

Example setupAuth_authorized :
  new_GoogleCalendarMCPServer env_authorized = Returned server_authorized.
Proof. reflexivity. Qed.

(** ** The dispatch boundary *)



(** A failing [events.list] surfaces with the client's own message. *)
Lemma list_events_remote_failure {S} (api : GoogleApi S) (this : Server)
      (fields : list (string * JsValue)) (w : World S) (e : Thrown) (s' : S) :
  events_list api (oauth2Client this) (list_params_of fields (clock w)) (remote w)
  = (Threw e, s') ->
  fst (CallToolRequest_handler api this (mkRequest "list_events" (JObj fields)) w)
  = Returned (error_result e).
Proof.
  intros H. rewrite call_list_events_object, H. reflexivity.
Qed.

(** C2. For a tool name other than [get_auth_url], [list_events] and
    [create_event], the request handler returns the result with
    [isError: true] and the single text item
    ["Error: Unknown tool: " + name]; no handler runs: no call is issued
    and the world is left as it was. *)
Theorem unknown_tool_is_error_result :
  forall (S : Type) (api : GoogleApi S) (this : Server)
         (nm : string) (args : JsValue) (w : World S),
    nm <> "get_auth_url" -> nm <> "list_events" -> nm <> "create_event" ->
    CallToolRequest_handler api this (mkRequest nm args) w =
    (Returned
       (mkToolResult
          [ mkContentItem "text" ("Error: Unknown tool: " ++ nm) ]
          (Some true)),
     w).
Proof.
  intros S api this nm args w H1 H2 H3.
  rewrite handler_unfold. cbn [params_name params_arguments]. unfold dispatch.
  apply String.eqb_neq in H1, H2, H3. rewrite H1, H2, H3. reflexivity.
Qed.

Lemma unknown_tool_is_error_result_witness :
  CallToolRequest_handler open_api server_authorized
    (mkRequest "delete_event" (JObj [])) world0 =
  (Returned
     (mkToolResult
        [ mkContentItem "text" "Error: Unknown tool: delete_event" ]
        (Some true)),
   world0).
Proof.
  apply (unknown_tool_is_error_result _ open_api server_authorized
           "delete_event" (JObj []) world0); discriminate.
Defined.

(** ** [list_events] defaults *)


(** The same defaults fill in for any arguments object in which the
    optional fields are missing or falsy. *)
Lemma list_events_defaults_fill_falsy_fields {S} (api : GoogleApi S)
      (this : Server) (fields : list (string * JsValue)) (w : World S) :
  truthy (lookup "calendarId" fields) = false ->
  truthy (lookup "timeMin" fields) = false ->
  truthy (lookup "maxResults" fields) = false ->
  calls (snd (CallToolRequest_handler api this
                (mkRequest "list_events" (JObj fields)) w)) =
  (calls w ++
   [ CallList (oauth2Client this)
       (mkListParams (JStr "primary") (JStr (clock w)) (lookup "timeMax" fields)
          (JNum 10) true "startTime") ])%list.
Proof.
  intros Hc Ht Hm. rewrite handler_unfold.
  cbn [params_name params_arguments]. unfold dispatch.
  cbn [String.eqb Ascii.eqb Bool.eqb].
  rewrite listEvents_object. cbv zeta.
  unfold list_params_of, js_or. rewrite Hc, Ht, Hm.
  destruct (events_list api _ _ (remote w)) as [[resp | e] s']; reflexivity.
Qed.

(** When the request has no [arguments] member at all, [args] is
    [undefined]: the handler throws on its first property read, the boundary
    reports it, and no call is issued. *)
Lemma list_events_arguments_omitted {S} (api : GoogleApi S) (this : Server)
      (w : World S) :
  CallToolRequest_handler api this (mkRequest "list_events" JUndefined) w =
  (Returned
     (mkToolResult
        [ mkContentItem "text"
            "Error: Cannot read properties of undefined (reading 'calendarId')" ]
        (Some true)),
   w).
Proof. reflexivity. Qed.

(** ** [get_auth_url] *)

(** C8. In every credential state (for every server object, with or
    without a refresh token) and for any arguments, [get_auth_url] returns
    a result without [isError] whose text embeds the URL that the OAuth2
    client generates for [access_type = "offline"] and a scope list
    containing the Google Calendar scope; nothing is sent to the calendar
    client. *)
Theorem get_auth_url_succeeds_in_any_state :
  forall (S : Type) (api : GoogleApi S) (this : Server)
         (args : JsValue) (w : World S),
  exists (opts : GenerateAuthUrlOpts) (before after : string),
    access_type opts = "offline" /\
    In "https://www.googleapis.com/auth/calendar" (scope opts) /\
    CallToolRequest_handler api this (mkRequest "get_auth_url" args) w =
    (Returned
       (mkToolResult
          [ mkContentItem "text"
              (before ++ generateAuthUrl api (oauth2Client this) opts ++ after) ]
          None),
     w).
Proof.
  intros S api this args w.
  exists (mkAuthUrlOpts "offline" [calendar_scope]).
  exists ("Please visit this URL to authorize the application:" ++ nl).
  exists (nl ++ nl ++ "After authorization, set the GOOGLE_REFRESH_TOKEN environment variable with the refresh token.").
  split; [reflexivity|]. split; [left; reflexivity|].
  rewrite handler_unfold. cbn [params_name params_arguments]. unfold dispatch.
  cbn [String.eqb Ascii.eqb Bool.eqb]. rewrite getAuthUrl_run.
  unfold auth_url_text. reflexivity.
Qed.

(** With the stand-in URL builder and no refresh token configured. *)
Example get_auth_url_configured_run :
  CallToolRequest_handler open_api server_configured
    (mkRequest "get_auth_url" JUndefined) world0 =
  (Returned
     (mkToolResult
        [ mkContentItem "text"
            ("Please visit this URL to authorize the application:" ++ nl
             ++ "https://accounts.google.com/o/oauth2/v2/auth?access_type=offline&scope=https://www.googleapis.com/auth/calendar&response_type=code&client_id=client-id&redirect_uri=urn:ietf:wg:oauth:2.0:oob"
             ++ nl ++ nl
             ++ "After authorization, set the GOOGLE_REFRESH_TOKEN environment variable with the refresh token.") ]
        None),
   world0).
Proof. reflexivity. Qed.

(** ** Shape of every result *)

(** C10. Every invocation returns a result whose [content] is exactly one
    item of type ["text"]; [isError] is [true] when the tool switch threw
    (the error path) and is absent when a handler returned. *)
Theorem every_result_is_one_text_item :
  forall (S : Type) (api : GoogleApi S) (this : Server)
         (request : CallToolRequest) (w : World S),
  exists t : string,
    fst (CallToolRequest_handler api this request w) =
    Returned
      (mkToolResult
         [ mkContentItem "text" t ]
         match fst (dispatch api this (params_name request)
                      (params_arguments request) w) with
         | Threw _ => Some true
         | Returned _ => None
         end).
Proof.
  intros S api this request w. rewrite handler_unfold.
  destruct (dispatch api this (params_name request) (params_arguments request) w)
    as [[r | e] w1] eqn:Hd; cbn [fst].
  - destruct (dispatch_returns_plain api this _ _ _ _ _ Hd) as [t Ht].
    exists t. rewrite Ht. reflexivity.
  - eexists. reflexivity.
Qed.

(** ** [create_event] without [summary] *)

(** C3, as the spec words it, fails: an invocation whose arguments lack
    [summary] is not rejected.  With a client that accepts the call, the
    insert is issued with [summary] undefined, an event is stored, and the
    result carries no [isError]. *)
Lemma create_event_without_summary_is_inserted :
  let fields := [ ("startDateTime", JStr "2024-01-01T10:00:00Z");
                  ("endDateTime", JStr "2024-01-01T11:00:00Z") ] in
  has_field (JObj fields) "summary" = false /\
  CallToolRequest_handler open_api server_authorized
    (mkRequest "create_event" (JObj fields)) world0 =
  (Returned
     (mkToolResult
        [ mkContentItem "text"
            ("Event created successfully!" ++ nl ++ "Event ID: evt0" ++ nl
             ++ "Event Link: https://calendar.example/event?eid=evt0") ]
        None),
   mkWorld
     [ mkRemoteEvent (Have "evt0") Undefined
         (Have (mkEventDateTime (Have "2024-01-01T10:00:00Z") Undefined))
         (Have (mkEventDateTime (Have "2024-01-01T11:00:00Z") Undefined))
         Undefined Undefined ]
     [ CallInsert client_authorized
         (mkInsertParams (JStr "primary")
            (mkEventPayload JUndefined JUndefined
               (mkPayloadTime (JStr "2024-01-01T10:00:00Z") "UTC")
               (mkPayloadTime (JStr "2024-01-01T11:00:00Z") "UTC")
               JUndefined)) ]
     "2024-01-01T09:00:00.000Z").
Proof. split; reflexivity. Qed.

(** C3, amended.  [createEvent] does not check [summary]: for an arguments
    object without it (and with [attendees] absent or an array), exactly one
    [events.insert] call is issued, its payload's [summary] being
    [undefined]; the result has [isError: true] exactly when that call
    throws, and is the success text otherwise. *)
Theorem create_event_missing_summary_reaches_insert :
  forall (S : Type) (api : GoogleApi S) (this : Server)
         (fields : list (string * JsValue)) (attendees : JsValue) (w : World S),
    lookup "summary" fields = JUndefined ->
    attendees_of_args (lookup "attendees" fields) = Returned attendees ->
    let p :=
      mkInsertParams
        (js_or (lookup "calendarId" fields) (JStr "primary"))
        (mkEventPayload JUndefined (lookup "description" fields)
           (mkPayloadTime (lookup "startDateTime" fields) "UTC")
           (mkPayloadTime (lookup "endDateTime" fields) "UTC")
           attendees) in
    CallToolRequest_handler api this (mkRequest "create_event" (JObj fields)) w =
    match events_insert api (oauth2Client this) p (remote w) with
    | (Returned resp, s') =>
        (Returned (insert_success resp),
         after_call w (CallInsert (oauth2Client this) p) s')
    | (Threw e, s') =>
        (Returned (error_result e),
         after_call w (CallInsert (oauth2Client this) p) s')
    end.
Proof.
  intros S api this fields attendees w Hsum Hatt p.
  rewrite (call_create_event_object api this fields attendees w Hatt).
  unfold insert_params_of. rewrite Hsum. fold p. reflexivity.
Qed.

Lemma create_event_missing_summary_reaches_insert_witness :
  CallToolRequest_handler guarded_api server_configured
    (mkRequest "create_event" (JObj [("startDateTime", JStr "2024-01-01T10:00:00Z")]))
    world0 =
  (Returned (error_result no_credentials_error),
   after_call world0
     (CallInsert client_configured
        (mkInsertParams (JStr "primary")
           (mkEventPayload JUndefined JUndefined
              (mkPayloadTime (JStr "2024-01-01T10:00:00Z") "UTC")
              (mkPayloadTime JUndefined "UTC")
              JUndefined)))
     []).
Proof.
  exact (create_event_missing_summary_reaches_insert _ guarded_api
           server_configured [("startDateTime", JStr "2024-01-01T10:00:00Z")]
           JUndefined world0 eq_refl eq_refl).
Defined.

(** ** Where validation and defaulting happen *)

(** C5, as the spec words it, fails.  The empty arguments object violates
    the required fields declared for [create_event], yet the switch hands
    it to [createEvent] as it is, and the handler goes on to issue the
    insert with [summary], [start] and [end] undefined.  Defaulting is the
    handlers' own work: [listEvents], run on its own on the empty object,
    fills in the defaults. *)
Lemma create_event_handler_receives_invalid_arguments :
  satisfies_required "create_event" (JObj []) = false /\
  dispatch open_api server_authorized "create_event" (JObj []) world0 =
  createEvent open_api server_authorized (JObj []) world0 /\
  calls (snd (createEvent open_api server_authorized (JObj []) world0)) =
  [ CallInsert client_authorized
      (mkInsertParams (JStr "primary")
         (mkEventPayload JUndefined JUndefined
            (mkPayloadTime JUndefined "UTC") (mkPayloadTime JUndefined "UTC")
            JUndefined)) ] /\
  calls (snd (listEvents open_api server_authorized (JObj []) world0)) =
  [ CallList client_authorized
      (mkListParams (JStr "primary") (JStr "2024-01-01T09:00:00.000Z")
         JUndefined (JNum 10) true "startTime") ].
Proof. repeat split. Qed.

(** C5, amended.  The switch neither validates nor defaults: each of the
    three names runs its handler on the arguments exactly as received.
    Defaulting of the optional fields is done, once per invocation, inside
    the handlers: [listEvents] sends [calendarId || "primary"],
    [timeMin || now] and [maxResults || 10], and [createEvent] sends
    [calendarId || "primary"]; required fields are read without a check. *)
Theorem dispatch_passes_arguments_unchanged :
  forall (S : Type) (api : GoogleApi S) (this : Server)
         (args : JsValue) (w : World S),
    dispatch api this "get_auth_url" args w = getAuthUrl api this w /\
    dispatch api this "list_events" args w = listEvents api this args w /\
    dispatch api this "create_event" args w = createEvent api this args w /\
    (forall fields,
        args = JObj fields ->
        calls (snd (listEvents api this args w)) =
        (calls w ++
         [ CallList (oauth2Client this)
             (mkListParams
                (js_or (lookup "calendarId" fields) (JStr "primary"))
                (js_or (lookup "timeMin" fields) (JStr (clock w)))
                (lookup "timeMax" fields)
                (js_or (lookup "maxResults" fields) (JNum 10))
                true "startTime") ])%list) /\
    (forall fields attendees,
        args = JObj fields ->
        attendees_of_args (lookup "attendees" fields) = Returned attendees ->
        calls (snd (createEvent api this args w)) =
        (calls w ++
         [ CallInsert (oauth2Client this)
             (mkInsertParams
                (js_or (lookup "calendarId" fields) (JStr "primary"))
                (mkEventPayload (lookup "summary" fields)
                   (lookup "description" fields)
                   (mkPayloadTime (lookup "startDateTime" fields) "UTC")
                   (mkPayloadTime (lookup "endDateTime" fields) "UTC")
                   attendees)) ])%list).
Proof.
  intros S api this args w.
  split; [reflexivity|]. split; [reflexivity|]. split; [reflexivity|]. split.
  - intros fields ->. rewrite listEvents_object. cbv zeta.
    destruct (events_list api _ _ (remote w)) as [[resp | e] s']; reflexivity.
  - intros fields attendees -> Hatt.
    rewrite (createEvent_object api this fields attendees w Hatt). cbv zeta.
    destruct (events_insert api _ _ (remote w)) as [[resp | e] s']; reflexivity.
Qed.

Lemma dispatch_passes_arguments_unchanged_witness :
  calls (snd (createEvent open_api server_authorized
                (JObj [("summary", JStr "S"); ("attendees", JArr [JStr "a@b.c"])])
                world0)) =
  [ CallInsert client_authorized
      (mkInsertParams (JStr "primary")
         (mkEventPayload (JStr "S") JUndefined
            (mkPayloadTime JUndefined "UTC") (mkPayloadTime JUndefined "UTC")
            (JArr [JObj [("email", JStr "a@b.c")]]))) ].
Proof.
  exact (proj2 (proj2 (proj2 (proj2
           (dispatch_passes_arguments_unchanged _ open_api server_authorized
              (JObj [("summary", JStr "S"); ("attendees", JArr [JStr "a@b.c"])])
              world0))))
           [("summary", JStr "S"); ("attendees", JArr [JStr "a@b.c"])]
           (JArr [JObj [("email", JStr "a@b.c")]]) eq_refl eq_refl).
Defined.

(** ** Credential state and the calendar handlers *)




(** When the client rejects a call made without a refresh token and leaves
    the remote calendar alone, as google-auth-library does, a server without
    a refresh token answers both calendar tools with [isError: true] and the
    remote calendar is unchanged. *)
Lemma calendar_tools_fail_when_client_rejects {S} (api : GoogleApi S)
      (this : Server) (fields : list (string * JsValue)) (w : World S) :
  (forall c p s, refresh_token (credentials c) = None ->
                 exists e, events_list api c p s = (Threw e, s)) ->
  (forall c p s, refresh_token (credentials c) = None ->
                 exists e, events_insert api c p s = (Threw e, s)) ->
  refresh_token (credentials (oauth2Client this)) = None ->
  forall nm, nm = "list_events" \/ nm = "create_event" ->
  exists t w',
    CallToolRequest_handler api this (mkRequest nm (JObj fields)) w =
    (Returned (mkToolResult [ mkContentItem "text" t ] (Some true)), w') /\
    remote w' = remote w.
Proof.
  intros Hlist Hins Hnone nm [-> | ->].
  - rewrite call_list_events_object.
    destruct (Hlist (oauth2Client this) (list_params_of fields (clock w))
                (remote w) Hnone) as [e He].
    rewrite He. eexists. eexists. split; reflexivity.
  - destruct (attendees_of_args (lookup "attendees" fields)) as [att | e0] eqn:Hatt.
    + rewrite (call_create_event_object api this fields att w Hatt).
      destruct (Hins (oauth2Client this) (insert_params_of fields att)
                  (remote w) Hnone) as [e He].
      rewrite He. eexists. eexists. split; reflexivity.
    + rewrite handler_unfold. cbn [params_name params_arguments].
      unfold dispatch. cbn [String.eqb Ascii.eqb Bool.eqb].
      rewrite (createEvent_bad_attendees api this fields e0 w Hatt).
      eexists. eexists. split; reflexivity.
Qed.

(** ** The tool catalog *)

(** C7, as the spec words it, fails: the catalog is not in the order
    [get_auth_url], [list_events], [create_event], and the schema of
    [list_events] declares no default for [timeMin]. *)
Lemma catalog_order_differs_from_table :
  map name ListToolsRequest_handler <> ["get_auth_url"; "list_events"; "create_event"]
  /\ declared_default "list_events" "timeMin" = None.
Proof. split; [discriminate | reflexivity]. Qed.

(** C7, amended.  The catalog response lists the three tools in the order
    [list_events], [create_event], [get_auth_url], each with its name,
    description and input schema.  [create_event] declares [summary],
    [startDateTime] and [endDateTime] required; [list_events] declares the
    defaults [calendarId = "primary"] and [maxResults = 10] and none for
    [timeMin] and [timeMax]; [create_event] declares the default
    [calendarId = "primary"]; [get_auth_url] has no properties. *)
Theorem catalog_contents :
  map name ListToolsRequest_handler =
    ["list_events"; "create_event"; "get_auth_url"] /\
  map description ListToolsRequest_handler =
    [ "List upcoming events from Google Calendar";
      "Create a new event in Google Calendar";
      "Get OAuth2 authorization URL for Google Calendar access" ] /\
  map (fun t => map fst (properties (inputSchema t))) ListToolsRequest_handler =
    [ ["calendarId"; "maxResults"; "timeMin"; "timeMax"];
      ["calendarId"; "summary"; "description"; "startDateTime"; "endDateTime";
       "attendees"];
      [] ] /\
  map (fun t => required (inputSchema t)) ListToolsRequest_handler =
    [ None; Some ["summary"; "startDateTime"; "endDateTime"]; None ] /\
  declared_default "list_events" "calendarId" = Some (JStr "primary") /\
  declared_default "list_events" "maxResults" = Some (JNum 10) /\
  declared_default "list_events" "timeMin" = None /\
  declared_default "list_events" "timeMax" = None /\
  declared_default "create_event" "calendarId" = Some (JStr "primary").
Proof. repeat split. Qed.

(** Every name in the catalog is served by the switch, and a name outside
    the catalog is not. *)
Lemma find_tool_names (nm : string) :
  match find_tool nm with
  | Some t => name t = nm /\ In nm ["list_events"; "create_event"; "get_auth_url"]
  | None => ~ In nm ["list_events"; "create_event"; "get_auth_url"]
  end.
Proof.
  unfold find_tool, tools. cbn [find name].
  destruct (String.eqb_spec "list_events" nm) as [<- | H1].
  { split; [reflexivity | left; reflexivity]. }
  destruct (String.eqb_spec "create_event" nm) as [<- | H2].
  { split; [reflexivity | right; left; reflexivity]. }
  destruct (String.eqb_spec "get_auth_url" nm) as [<- | H3].
  { split; [reflexivity | right; right; left; reflexivity]. }
  intros [H | [H | [H | []]]]; congruence.
Qed.

(** ** Reshaping remote events *)




(** A run of [list_events] over a calendar holding one timed and one
    all-day event. *)
Example list_events_run :
  fst (CallToolRequest_handler open_api server_authorized
         (mkRequest "list_events" (JObj [("maxResults", JNum 5)]))
         (mkWorld
            [ mkRemoteEvent (Have "e1") (Have "Standup")
                (Have (mkEventDateTime (Have "2024-01-01T10:00:00Z") Undefined))
                (Have (mkEventDateTime (Have "2024-01-01T10:15:00Z") Undefined))
                Undefined
                (Have [ mkEventAttendee (Have "a@b.c"); mkEventAttendee Undefined ]);
              mkRemoteEvent (Have "e2") Null
                (Have (mkEventDateTime Undefined (Have "2024-01-02")))
                (Have (mkEventDateTime Null (Have "2024-01-03")))
                (Have "trip") Undefined ]
            [] "2024-01-01T09:00:00.000Z")) =
  Returned
    (mkToolResult
       [ mkContentItem "text"
           (with_dquotes
              "[
  {
    'id': 'e1',
    'summary': 'Standup',
    'start': '2024-01-01T10:00:00Z',
    'end': '2024-01-01T10:15:00Z',
    'attendees': [
      'a@b.c',
      null
    ]
  },
  {
    'id': 'e2',
    'summary': null,
    'start': '2024-01-02',
    'end': '2024-01-03',
    'description': 'trip'
  }
]") ]
       None).
Proof. reflexivity. Qed.


(** * Further properties of the code *)

(** ** [setupAuth] *)

(** [setupAuth] throws exactly when [GOOGLE_CLIENT_ID] or
    [GOOGLE_CLIENT_SECRET] is unset or empty, always with the same message;
    in every other environment it returns a client.  Neither the redirect
    URI nor the refresh token can make it fail. *)
Theorem setupAuth_throws_iff_credentials_missing :
  forall env : Env,
    (setupAuth env = Threw (new_Error missing_credentials_message) <->
     env_set (GOOGLE_CLIENT_ID env) = false \/
     env_set (GOOGLE_CLIENT_SECRET env) = false) /\
    ((exists c, setupAuth env = Returned c) <->
     env_set (GOOGLE_CLIENT_ID env) = true /\
     env_set (GOOGLE_CLIENT_SECRET env) = true).
Proof.
  intros env. unfold setupAuth, missing_credentials_message.
  destruct (env_set (GOOGLE_CLIENT_ID env)),
           (env_set (GOOGLE_CLIENT_SECRET env)); cbn [negb orb].
  - split; split.
    + destruct (env_set (GOOGLE_REFRESH_TOKEN env)); discriminate.
    + intros [H | H]; discriminate.
    + intros _. split; reflexivity.
    + intros _. destruct (env_set (GOOGLE_REFRESH_TOKEN env)); eexists; reflexivity.
  - split; split.
    + intros _. right. reflexivity.
    + reflexivity.
    + intros [c H]. discriminate.
    + intros [_ H]. discriminate.
  - split; split.
    + intros _. left. reflexivity.
    + reflexivity.
    + intros [c H]. discriminate.
    + intros [H _]. discriminate.
  - split; split.
    + intros _. left. reflexivity.
    + reflexivity.
    + intros [c H]. discriminate.
    + intros [H _]. discriminate.
Qed.

Lemma setupAuth_throws_iff_credentials_missing_witness :
  setupAuth (mkEnv (Some "client-id") (Some EmptyString) None (Some "1//refresh"))
  = Threw (new_Error missing_credentials_message).
Proof.
  apply (proj2 (proj1 (setupAuth_throws_iff_credentials_missing
           (mkEnv (Some "client-id") (Some EmptyString) None (Some "1//refresh"))))).
  right. reflexivity.
Defined.

(** A client that [setupAuth] returns carries the client id and secret of
    the environment unchanged, and as redirect URI the environment's value
    when that is set and non-empty, the out-of-band URN otherwise. *)
Theorem setupAuth_client_configuration :
  forall (env : Env) (c : OAuth2Client),
    setupAuth env = Returned c ->
    GOOGLE_CLIENT_ID env = Some (_clientId c) /\
    GOOGLE_CLIENT_SECRET env = Some (_clientSecret c) /\
    redirectUri c =
    match GOOGLE_REDIRECT_URI env with
    | Some uri => if uri =? EmptyString then "urn:ietf:wg:oauth:2.0:oob" else uri
    | None => "urn:ietf:wg:oauth:2.0:oob"
    end.
Proof.
  intros env c. unfold setupAuth.
  destruct env as [cid cs ru rt]. cbn [GOOGLE_CLIENT_ID GOOGLE_CLIENT_SECRET
    GOOGLE_REDIRECT_URI GOOGLE_REFRESH_TOKEN].
  destruct cid as [cid|]; [| discriminate].
  destruct cs as [cs|]; cbn [env_set];
    [| rewrite orb_true_r; discriminate].
  destruct (cid =? EmptyString) eqn:Hid; cbn [negb orb]; [discriminate|].
  destruct (cs =? EmptyString) eqn:Hcs; cbn [negb orb]; [discriminate|].
  cbn [env_or]. rewrite Hid, Hcs.
  destruct (env_set rt); intros H; inversion H; cbn;
    (split; [reflexivity | split; [reflexivity |]]);
    destruct ru as [uri|]; reflexivity.
Qed.

Lemma setupAuth_client_configuration_witness :
  GOOGLE_CLIENT_ID (mkEnv (Some "id") (Some "secret") (Some "http://localhost:3000/cb") None)
  = Some "id" /\
  GOOGLE_CLIENT_SECRET (mkEnv (Some "id") (Some "secret") (Some "http://localhost:3000/cb") None)
  = Some "secret" /\
  redirectUri
    (mkOAuth2Client "id" "secret" "http://localhost:3000/cb" (mkCredentials None))
  = "http://localhost:3000/cb".
Proof.
  exact (setupAuth_client_configuration
           (mkEnv (Some "id") (Some "secret") (Some "http://localhost:3000/cb") None)
           (mkOAuth2Client "id" "secret" "http://localhost:3000/cb" (mkCredentials None))
           eq_refl).
Defined.

(** The returned client holds a refresh token exactly when
    [GOOGLE_REFRESH_TOKEN] is set and non-empty, and then it is that value;
    an empty [GOOGLE_REFRESH_TOKEN] counts as none. *)
Theorem setupAuth_credentials :
  forall (env : Env) (c : OAuth2Client),
    setupAuth env = Returned c ->
    refresh_token (credentials c) =
    match GOOGLE_REFRESH_TOKEN env with
    | Some t => if t =? EmptyString then None else Some t
    | None => None
    end.
Proof.
  intros env c. unfold setupAuth.
  destruct (negb (env_set (GOOGLE_CLIENT_ID env))
            || negb (env_set (GOOGLE_CLIENT_SECRET env))); [discriminate|].
  destruct (GOOGLE_REFRESH_TOKEN env) as [t|]; cbn [env_set].
  - destruct (t =? EmptyString); cbn [negb];
      intros H; inversion H; reflexivity.
  - intros H; inversion H; reflexivity.
Qed.

Lemma setupAuth_credentials_witness :
  refresh_token (credentials client_configured) = None.
Proof.
  exact (setupAuth_credentials
           (mkEnv (Some "client-id") (Some "client-secret") None (Some EmptyString))
           client_configured eq_refl).
Defined.

(** ** What one invocation does to the world *)

Section Effects.
Context {S : Type} (api : GoogleApi S) (this : Server).

Lemma handler_world (request : CallToolRequest) (w : World S) :
  snd (CallToolRequest_handler api this request w) =
  snd (dispatch api this (params_name request) (params_arguments request) w).
Proof.
  rewrite handler_unfold.
  destruct (dispatch api this (params_name request) (params_arguments request) w)
    as [[r | e] w1]; reflexivity.
Qed.

Lemma listEvents_reads_fields (args : JsValue) (w : World S) :
  nullish args = false ->
  listEvents api this args w = listEvents api this (JObj (fields_of args)) w.
Proof. destruct args; intros H; try discriminate; reflexivity. Qed.

Lemma createEvent_reads_fields (args : JsValue) (w : World S) :
  nullish args = false ->
  createEvent api this args w = createEvent api this (JObj (fields_of args)) w.
Proof. destruct args; intros H; try discriminate; reflexivity. Qed.

Lemma listEvents_nullish (args : JsValue) (w : World S) :
  nullish args = true ->
  listEvents api this args w =
  (Threw (new_TypeError
            ("Cannot read properties of " ++ js_String args
             ++ " (reading 'calendarId')")), w).
Proof. destruct args; intros H; try discriminate; reflexivity. Qed.

Lemma createEvent_nullish (args : JsValue) (w : World S) :
  nullish args = true ->
  createEvent api this args w =
  (Threw (new_TypeError
            ("Cannot read properties of " ++ js_String args
             ++ " (reading 'summary')")), w).
Proof. destruct args; intros H; try discriminate; reflexivity. Qed.

Lemma listEvents_world (args : JsValue) (w : World S) :
  snd (listEvents api this args w) = w \/
  exists s',
    nullish args = false /\
    snd (listEvents api this args w) =
    after_call w
      (CallList (oauth2Client this) (list_params_of (fields_of args) (clock w))) s'.
Proof.
  destruct (nullish args) eqn:Hn.
  - left. rewrite (listEvents_nullish args w Hn). reflexivity.
  - right. rewrite (listEvents_reads_fields args w Hn), listEvents_object.
    cbv zeta.
    destruct (events_list api _ _ (remote w)) as [[resp | e] s'];
      exists s'; split; reflexivity.
Qed.

Lemma createEvent_world (args : JsValue) (w : World S) :
  snd (createEvent api this args w) = w \/
  exists attendees s',
    nullish args = false /\
    attendees_of_args (lookup "attendees" (fields_of args)) = Returned attendees /\
    snd (createEvent api this args w) =
    after_call w
      (CallInsert (oauth2Client this) (insert_params_of (fields_of args) attendees))
      s'.
Proof.
  destruct (nullish args) eqn:Hn.
  - left. rewrite (createEvent_nullish args w Hn). reflexivity.
  - rewrite (createEvent_reads_fields args w Hn).
    destruct (attendees_of_args (lookup "attendees" (fields_of args)))
      as [att | e0] eqn:Hatt.
    + right. rewrite (createEvent_object api this _ att w Hatt). cbv zeta.
      destruct (events_insert api _ _ (remote w)) as [[resp | e] s'];
        exists att, s'; repeat split; reflexivity.
    + left. rewrite (createEvent_bad_attendees api this _ e0 w Hatt). reflexivity.
Qed.

Lemma dispatch_cases (nm : string) (args : JsValue) :
  (nm = "get_auth_url" /\ dispatch api this nm args = getAuthUrl api this) \/
  (nm = "list_events" /\ dispatch api this nm args = listEvents api this args) \/
  (nm = "create_event" /\ dispatch api this nm args = createEvent api this args) \/
  (nm <> "get_auth_url" /\ nm <> "list_events" /\ nm <> "create_event" /\
   dispatch api this nm args = throw (new_Error ("Unknown tool: " ++ nm))).
Proof.
  unfold dispatch.
  destruct (String.eqb_spec nm "get_auth_url") as [-> | H1].
  { left. split; reflexivity. }
  destruct (String.eqb_spec nm "list_events") as [-> | H2].
  { right; left. split; reflexivity. }
  destruct (String.eqb_spec nm "create_event") as [-> | H3].
  { right; right; left. split; reflexivity. }
  right; right; right. repeat split; assumption.
Qed.
End Effects.

(** An invocation changes the world by at most one call, and the tool name
    decides its kind: [list_events] can only add one [events.list] call,
    [create_event] only one [events.insert] call, each made with the
    server's own client; every other name, and every invocation that fails
    before its call, leaves the remote calendar, the call log and the clock
    exactly as they were.  There is no retry after a failed call. *)
Theorem call_tool_issues_at_most_one_call :
  forall (S : Type) (api : GoogleApi S) (this : Server)
         (request : CallToolRequest) (w : World S),
    let w' := snd (CallToolRequest_handler api this request w) in
    w' = w \/
    (params_name request = "list_events" /\
     exists p s', w' = mkWorld s' (calls w ++ [CallList (oauth2Client this) p])
                         (clock w)) \/
    (params_name request = "create_event" /\
     exists p s', w' = mkWorld s' (calls w ++ [CallInsert (oauth2Client this) p])
                         (clock w)).
Proof.
  intros S api this request w w'. subst w'. rewrite handler_world.
  destruct (dispatch_cases api this (params_name request) (params_arguments request))
    as [[Hn Hd] | [[Hn Hd] | [[Hn Hd] | [_ [_ [_ Hd]]]]]]; rewrite Hd.
  - left. reflexivity.
  - destruct (listEvents_world api this (params_arguments request) w)
      as [H | [s' [_ H]]].
    + left. exact H.
    + right; left. split; [exact Hn|]. eexists. exists s'. exact H.
  - destruct (createEvent_world api this (params_arguments request) w)
      as [H | [att [s' [_ [_ H]]]]].
    + left. exact H.
    + right; right. split; [exact Hn|]. eexists. exists s'. exact H.
  - left. reflexivity.
Qed.

(** Whatever the arguments, a call that [list_events] adds to the log asks
    for recurring events to be expanded ([singleEvents = true]) and for
    ordering by start time, and carries [timeMax] exactly as the arguments
    hold it (undefined when they do not). *)
Theorem list_events_call_has_fixed_flags :
  forall (S : Type) (api : GoogleApi S) (this : Server)
         (args : JsValue) (w : World S) (c : Call),
    In c (calls (snd (CallToolRequest_handler api this
                        (mkRequest "list_events" args) w))) ->
    In c (calls w) \/
    exists p,
      c = CallList (oauth2Client this) p /\
      lp_singleEvents p = true /\
      lp_orderBy p = "startTime" /\
      lp_timeMax p = lookup "timeMax" (fields_of args).
Proof.
  intros S api this args w c. rewrite handler_world.
  cbn [params_name params_arguments]. unfold dispatch.
  cbn [String.eqb Ascii.eqb Bool.eqb].
  destruct (listEvents_world api this args w) as [H | [s' [_ H]]]; rewrite H.
  - intros Hin. left. exact Hin.
  - unfold after_call. cbn [calls]. intros Hin.
    apply in_app_or in Hin. destruct Hin as [Hin | [<- | []]].
    + left. exact Hin.
    + right. eexists. split; [reflexivity|]. repeat split.
Qed.

Lemma list_events_call_has_fixed_flags_witness :
  In (CallList client_authorized
        (mkListParams (JStr "work") (JStr "2024-01-01T09:00:00.000Z")
           (JStr "2024-02-01T00:00:00Z") (JNum 10) true "startTime"))
     (calls world0) \/
  exists p,
    CallList client_authorized
      (mkListParams (JStr "work") (JStr "2024-01-01T09:00:00.000Z")
         (JStr "2024-02-01T00:00:00Z") (JNum 10) true "startTime")
    = CallList (oauth2Client server_authorized) p /\
    lp_singleEvents p = true /\
    lp_orderBy p = "startTime" /\
    lp_timeMax p =
    lookup "timeMax"
      (fields_of (JObj [("calendarId", JStr "work");
                        ("timeMax", JStr "2024-02-01T00:00:00Z")])).
Proof.
  apply (list_events_call_has_fixed_flags _ open_api server_authorized
           (JObj [("calendarId", JStr "work");
                  ("timeMax", JStr "2024-02-01T00:00:00Z")]) world0).
  left. reflexivity.
Defined.

(** Whatever the arguments, a call that [create_event] adds to the log has
    a payload whose start and end both carry the time zone ["UTC"], with
    [dateTime], [summary] and [description] exactly as the arguments hold
    them. *)
Theorem create_event_payload_is_utc :
  forall (S : Type) (api : GoogleApi S) (this : Server)
         (args : JsValue) (w : World S) (c : Call),
    In c (calls (snd (CallToolRequest_handler api this
                        (mkRequest "create_event" args) w))) ->
    In c (calls w) \/
    exists p,
      c = CallInsert (oauth2Client this) p /\
      pt_timeZone (pl_start (ip_requestBody p)) = "UTC" /\
      pt_timeZone (pl_end (ip_requestBody p)) = "UTC" /\
      pt_dateTime (pl_start (ip_requestBody p))
      = lookup "startDateTime" (fields_of args) /\
      pt_dateTime (pl_end (ip_requestBody p))
      = lookup "endDateTime" (fields_of args) /\
      pl_summary (ip_requestBody p) = lookup "summary" (fields_of args) /\
      pl_description (ip_requestBody p) = lookup "description" (fields_of args).
Proof.
  intros S api this args w c. rewrite handler_world.
  cbn [params_name params_arguments]. unfold dispatch.
  cbn [String.eqb Ascii.eqb Bool.eqb].
  destruct (createEvent_world api this args w) as [H | [att [s' [_ [_ H]]]]];
    rewrite H.
  - intros Hin. left. exact Hin.
  - unfold after_call. cbn [calls]. intros Hin.
    apply in_app_or in Hin. destruct Hin as [Hin | [<- | []]].
    + left. exact Hin.
    + right. eexists. split; [reflexivity|]. repeat split.
Qed.

Lemma create_event_payload_is_utc_witness :
  In (CallInsert client_authorized
        (insert_params_of
           [("summary", JStr "S"); ("startDateTime", JStr "2024-01-01T10:00:00+02:00")]
           JUndefined))
     (calls world0) \/
  exists p,
    CallInsert client_authorized
      (insert_params_of
         [("summary", JStr "S"); ("startDateTime", JStr "2024-01-01T10:00:00+02:00")]
         JUndefined)
    = CallInsert (oauth2Client server_authorized) p /\
    pt_timeZone (pl_start (ip_requestBody p)) = "UTC" /\
    pt_timeZone (pl_end (ip_requestBody p)) = "UTC" /\
    pt_dateTime (pl_start (ip_requestBody p))
    = lookup "startDateTime"
        (fields_of (JObj [("summary", JStr "S");
                          ("startDateTime", JStr "2024-01-01T10:00:00+02:00")])) /\
    pt_dateTime (pl_end (ip_requestBody p))
    = lookup "endDateTime"
        (fields_of (JObj [("summary", JStr "S");
                          ("startDateTime", JStr "2024-01-01T10:00:00+02:00")])) /\
    pl_summary (ip_requestBody p)
    = lookup "summary"
        (fields_of (JObj [("summary", JStr "S");
                          ("startDateTime", JStr "2024-01-01T10:00:00+02:00")])) /\
    pl_description (ip_requestBody p)
    = lookup "description"
        (fields_of (JObj [("summary", JStr "S");
                          ("startDateTime", JStr "2024-01-01T10:00:00+02:00")])).
Proof.
  apply (create_event_payload_is_utc _ open_api server_authorized
           (JObj [("summary", JStr "S");
                  ("startDateTime", JStr "2024-01-01T10:00:00+02:00")]) world0).
  left. reflexivity.
Defined.

(** ** Arguments the handlers cannot use *)



(** An [attendees] argument that is neither absent, [null] nor an array (a
    single address given as a string, say) makes [create_event] fail with
    [isError: true] before the insert: no call is issued and the world is
    unchanged. *)
Theorem create_event_rejects_malformed_attendees :
  forall (S : Type) (api : GoogleApi S) (this : Server)
         (fields : list (string * JsValue)) (w : World S),
    nullish (lookup "attendees" fields) = false ->
    (forall xs, lookup "attendees" fields <> JArr xs) ->
    CallToolRequest_handler api this (mkRequest "create_event" (JObj fields)) w =
    (Returned
       (mkToolResult
          [ mkContentItem "text" "Error: args.attendees?.map is not a function" ]
          (Some true)), w).
Proof.
  intros S api this fields w Hn Harr.
  rewrite handler_unfold. cbn [params_name params_arguments]. unfold dispatch.
  cbn [String.eqb Ascii.eqb Bool.eqb].
  rewrite (createEvent_bad_attendees api this fields
             (new_TypeError "args.attendees?.map is not a function") w).
  - reflexivity.
  - destruct (lookup "attendees" fields) as [ | | b | n | s | xs | f];
      try discriminate; try reflexivity.
    exfalso. apply (Harr xs). reflexivity.
Qed.

Lemma create_event_rejects_malformed_attendees_witness :
  CallToolRequest_handler open_api server_authorized
    (mkRequest "create_event"
       (JObj [("summary", JStr "S"); ("attendees", JStr "a@b.c")])) world0 =
  (Returned
     (mkToolResult
        [ mkContentItem "text" "Error: args.attendees?.map is not a function" ]
        (Some true)), world0).
Proof.
  apply (create_event_rejects_malformed_attendees _ open_api server_authorized
           [("summary", JStr "S"); ("attendees", JStr "a@b.c")] world0).
  - reflexivity.
  - intros xs. discriminate.
Defined.

Lemma map_email_of_wrap (xs : list JsValue) :
  map email_of (map (fun email => JObj [("email", email)]) xs) = xs.
Proof.
  induction xs as [| x xs IH]; [reflexivity|].
  cbn [map]. rewrite IH. reflexivity.
Qed.

(** An [attendees] array reaches the insert payload as an array of
    [{email}] objects of the same length and in the same order: reading
    [email] off each payload entry gives back the arguments' array.  An
    empty array stays an empty array. *)
Theorem create_event_attendees_round_trip :
  forall (S : Type) (api : GoogleApi S) (this : Server)
         (fields : list (string * JsValue)) (xs : list JsValue) (w : World S),
    lookup "attendees" fields = JArr xs ->
    exists p ys,
      calls (snd (CallToolRequest_handler api this
                    (mkRequest "create_event" (JObj fields)) w)) =
      (calls w ++ [CallInsert (oauth2Client this) p])%list /\
      pl_attendees (ip_requestBody p) = JArr ys /\
      map email_of ys = xs /\
      length ys = length xs.
Proof.
  intros S api this fields xs w Hatt.
  exists (insert_params_of fields
            (JArr (map (fun email => JObj [("email", email)]) xs))).
  exists (map (fun email => JObj [("email", email)]) xs).
  split; [| split; [reflexivity | split]].
  - rewrite (call_create_event_object api this fields
               (JArr (map (fun email => JObj [("email", email)]) xs)) w).
    + destruct (events_insert api _ _ (remote w)) as [[resp | e] s']; reflexivity.
    + rewrite Hatt. reflexivity.
  - apply map_email_of_wrap.
  - apply length_map.
Qed.

Lemma create_event_attendees_round_trip_witness :
  exists p ys,
    calls (snd (CallToolRequest_handler open_api server_authorized
                  (mkRequest "create_event"
                     (JObj [("summary", JStr "S");
                            ("attendees", JArr [JStr "a@b.c"; JStr "d@e.f"])]))
                  world0)) =
    (calls world0 ++ [CallInsert (oauth2Client server_authorized) p])%list /\
    pl_attendees (ip_requestBody p) = JArr ys /\
    map email_of ys = [JStr "a@b.c"; JStr "d@e.f"] /\
    length ys = length [JStr "a@b.c"; JStr "d@e.f"].
Proof.
  apply (create_event_attendees_round_trip _ open_api server_authorized
           [("summary", JStr "S"); ("attendees", JArr [JStr "a@b.c"; JStr "d@e.f"])]
           [JStr "a@b.c"; JStr "d@e.f"] world0).
  reflexivity.
Defined.

(** ** Optional fields of [list_events] *)

Lemma truthy_false_iff (v : JsValue) : truthy v = false <-> falsy_value v.
Proof.
  unfold falsy_value. split.
  - destruct v as [ | | b | n | s | xs | f]; cbn [truthy]; intros H;
      try discriminate; auto.
    + destruct b; [discriminate | auto].
    + apply negb_false_iff, Z.eqb_eq in H. subst n. auto 6.
    + apply negb_false_iff, String.eqb_eq in H. subst s. auto 6.
  - intros [-> | [-> | [-> | [-> | ->]]]]; reflexivity.
Qed.

Lemma js_or_cases (v d : JsValue) :
  (falsy_value v -> js_or v d = d) /\ (~ falsy_value v -> js_or v d = v).
Proof.
  unfold js_or. destruct (truthy v) eqn:Ht; split; intros H; try reflexivity.
  - apply truthy_false_iff in H. congruence.
  - exfalso. apply H. apply truthy_false_iff. exact Ht.
Qed.

(** For an arguments object, [list_events] sends each of [calendarId],
    [timeMin] and [maxResults] unchanged and unchecked when the arguments
    hold a value other than [undefined], [null], [false], [0] or the empty
    string, and sends the default (["primary"], the current instant, [10])
    for each of those five values: [maxResults: 0] is sent as [10]. *)
Theorem list_events_option_defaults :
  forall (S : Type) (api : GoogleApi S) (this : Server)
         (fields : list (string * JsValue)) (w : World S),
  exists p,
    calls (snd (CallToolRequest_handler api this
                  (mkRequest "list_events" (JObj fields)) w)) =
    (calls w ++ [CallList (oauth2Client this) p])%list /\
    (falsy_value (lookup "calendarId" fields) -> lp_calendarId p = JStr "primary") /\
    (~ falsy_value (lookup "calendarId" fields) ->
     lp_calendarId p = lookup "calendarId" fields) /\
    (falsy_value (lookup "timeMin" fields) -> lp_timeMin p = JStr (clock w)) /\
    (~ falsy_value (lookup "timeMin" fields) ->
     lp_timeMin p = lookup "timeMin" fields) /\
    (falsy_value (lookup "maxResults" fields) -> lp_maxResults p = JNum 10) /\
    (~ falsy_value (lookup "maxResults" fields) ->
     lp_maxResults p = lookup "maxResults" fields).
Proof.
  intros S api this fields w.
  exists (list_params_of fields (clock w)). split.
  - rewrite call_list_events_object.
    destruct (events_list api _ _ (remote w)) as [[resp | e] s']; reflexivity.
  - unfold list_params_of.
    cbn [lp_calendarId lp_timeMin lp_maxResults].
    repeat split; apply js_or_cases.
Qed.

Lemma list_events_option_defaults_witness :
  exists p,
    calls (snd (CallToolRequest_handler open_api server_authorized
                  (mkRequest "list_events"
                     (JObj [("calendarId", JStr "work"); ("maxResults", JNum 0)]))
                  world0)) =
    (calls world0 ++ [CallList (oauth2Client server_authorized) p])%list /\
    lp_calendarId p = JStr "work" /\
    lp_maxResults p = JNum 10.
Proof.
  destruct (list_events_option_defaults _ open_api server_authorized
              [("calendarId", JStr "work"); ("maxResults", JNum 0)] world0)
    as [p [Hc [_ [Hid [_ [_ [Hmax _]]]]]]].
  exists p. split; [exact Hc | split].
  - apply Hid. unfold falsy_value. cbn.
    intros [H | [H | [H | [H | H]]]]; discriminate.
  - apply Hmax. unfold falsy_value. cbn. right; right; right; left. reflexivity.
Defined.

(** ** Results built from the client's answer *)

(** A list response without an [items] member ([undefined] or [null]) is
    answered like an empty list: the success text is ["[]"]. *)
Theorem list_events_missing_items_is_empty_list :
  forall (S : Type) (api : GoogleApi S) (this : Server)
         (fields : list (string * JsValue)) (w : World S)
         (resp : ListResponse) (s' : S),
    events_list api (oauth2Client this) (list_params_of fields (clock w))
      (remote w) = (Returned resp, s') ->
    items resp = Undefined \/ items resp = Null \/ items resp = Have [] ->
    fst (CallToolRequest_handler api this
           (mkRequest "list_events" (JObj fields)) w) =
    Returned (mkToolResult [ mkContentItem "text" "[]" ] None).
Proof.
  intros S api this fields w resp s' Hcall Hitems.
  rewrite call_list_events_object, Hcall. cbn [fst]. unfold list_success.
  destruct Hitems as [-> | [-> | ->]]; reflexivity.
Qed.

Lemma list_events_missing_items_is_empty_list_witness :
  fst (CallToolRequest_handler
         (mkGoogleApi unit plain_auth_url
            (fun _ _ st => (Returned (mkListResponse Undefined), st))
            (fun _ _ st => (Threw no_credentials_error, st)))
         server_authorized (mkRequest "list_events" (JObj []))
         (mkWorld tt [] "2024-01-01T09:00:00.000Z")) =
  Returned (mkToolResult [ mkContentItem "text" "[]" ] None).
Proof.
  apply (list_events_missing_items_is_empty_list unit
           (mkGoogleApi unit plain_auth_url
              (fun _ _ st => (Returned (mkListResponse Undefined), st))
              (fun _ _ st => (Threw no_credentials_error, st)))
           server_authorized [] (mkWorld tt [] "2024-01-01T09:00:00.000Z")
           (mkListResponse Undefined) tt).
  - reflexivity.
  - left. reflexivity.
Defined.

(** When the insert returns, the success text quotes the response's [id]
    and [htmlLink] verbatim on the second and third line; a member the
    response lacks is printed as the word [undefined] (or [null]), and the
    result is still a success. *)
Theorem create_event_success_text :
  forall (S : Type) (api : GoogleApi S) (this : Server)
         (fields : list (string * JsValue)) (attendees : JsValue) (w : World S)
         (resp : InsertResponse) (s' : S),
    attendees_of_args (lookup "attendees" fields) = Returned attendees ->
    events_insert api (oauth2Client this) (insert_params_of fields attendees)
      (remote w) = (Returned resp, s') ->
    let shown (m : Nullable string) :=
      match m with
      | Have v => v
      | Null => "null"
      | Undefined => "undefined"
      end in
    fst (CallToolRequest_handler api this
           (mkRequest "create_event" (JObj fields)) w) =
    Returned
      (mkToolResult
         [ mkContentItem "text"
             ("Event created successfully!" ++ nl
              ++ "Event ID: " ++ shown (ir_id resp) ++ nl
              ++ "Event Link: " ++ shown (ir_htmlLink resp)) ]
         None).
Proof.
  intros S api this fields attendees w resp s' Hatt Hcall shown.
  rewrite (call_create_event_object api this fields attendees w Hatt), Hcall.
  cbn [fst]. unfold insert_success, template_hole, shown.
  destruct (ir_id resp), (ir_htmlLink resp); reflexivity.
Qed.

Lemma create_event_success_text_witness :
  fst (CallToolRequest_handler open_api server_authorized
         (mkRequest "create_event" (JObj [("summary", JStr "S")])) world0) =
  Returned
    (mkToolResult
       [ mkContentItem "text"
           ("Event created successfully!" ++ nl
            ++ "Event ID: evt0" ++ nl
            ++ "Event Link: https://calendar.example/event?eid=evt0") ]
       None).
Proof.
  exact (create_event_success_text _ open_api server_authorized
           [("summary", JStr "S")] JUndefined world0
           (mkInsertResponse (Have "evt0")
              (Have "https://calendar.example/event?eid=evt0"))
           [stored_event 0 (ip_requestBody
                              (insert_params_of [("summary", JStr "S")] JUndefined))]
           eq_refl eq_refl).
Defined.

(** A client failure that is an [Error] object surfaces on both calendar
    tools as ["Error: "] followed by its message and nothing else: the
    result is the same whatever the error's class name, and the world keeps
    the state the failed call left. *)
Theorem client_error_message_is_verbatim :
  forall (S : Type) (api : GoogleApi S) (this : Server)
         (fields : list (string * JsValue)) (w : World S)
         (cls message : string) (s' : S),
    (events_list api (oauth2Client this) (list_params_of fields (clock w))
       (remote w) = (Threw (ErrorObject cls message), s') ->
     CallToolRequest_handler api this (mkRequest "list_events" (JObj fields)) w =
     (Returned
        (mkToolResult [ mkContentItem "text" ("Error: " ++ message) ] (Some true)),
      mkWorld s'
        (calls w ++ [CallList (oauth2Client this)
                       (list_params_of fields (clock w))])
        (clock w))) /\
    (forall attendees,
        attendees_of_args (lookup "attendees" fields) = Returned attendees ->
        events_insert api (oauth2Client this) (insert_params_of fields attendees)
          (remote w) = (Threw (ErrorObject cls message), s') ->
        CallToolRequest_handler api this
          (mkRequest "create_event" (JObj fields)) w =
        (Returned
           (mkToolResult [ mkContentItem "text" ("Error: " ++ message) ]
              (Some true)),
         mkWorld s'
           (calls w ++ [CallInsert (oauth2Client this)
                          (insert_params_of fields attendees)])
           (clock w))).
Proof.
  intros S api this fields w cls message s'. split.
  - intros H. rewrite call_list_events_object, H. reflexivity.
  - intros attendees Hatt H.
    rewrite (call_create_event_object api this fields attendees w Hatt), H.
    reflexivity.
Qed.

Lemma client_error_message_is_verbatim_witness :
  CallToolRequest_handler guarded_api server_configured
    (mkRequest "list_events" (JObj [])) world0 =
  (Returned
     (mkToolResult
        [ mkContentItem "text"
            ("Error: " ++ "No access, refresh token, API key or refresh handler callback is set.") ]
        (Some true)),
   mkWorld []
     (calls world0 ++ [CallList (oauth2Client server_configured)
                         (list_params_of [] (clock world0))])
     (clock world0)).
Proof.
  apply (proj1 (client_error_message_is_verbatim _ guarded_api server_configured
                  [] world0 "Error"
                  "No access, refresh token, API key or refresh handler callback is set."
                  [])).
  reflexivity.
Defined.

Lemma append_assoc (a b c : string) : (a ++ b) ++ c = a ++ (b ++ c).
Proof.
  induction a as [| ch a IH]; [reflexivity|].
  cbn [append]. rewrite IH. reflexivity.
Qed.

Lemma json_serialize_array_brackets (indent : string) (xs : list JsValue) :
  exists body, json_serialize indent (JArr xs) = Some ("[" ++ body ++ "]").
Proof.
  cbn [json_serialize].
  match goal with
  | |- context [match ?l with [] => _ | _ :: _ => _ end] => destruct l as [| x rest]
  end.
  - exists EmptyString. reflexivity.
  - exists (nl ++ (indent ++ "  ")
            ++ join ("," ++ nl ++ indent ++ "  ") (x :: rest) ++ nl ++ indent).
    rewrite !append_assoc. reflexivity.
Qed.

(** Whenever the list call returns, the success text of [list_events] is a
    bracketed JSON array, ["["] ... ["]"], whatever the events hold; it is
    never the word [undefined]. *)
Theorem list_events_text_is_json_array :
  forall (S : Type) (api : GoogleApi S) (this : Server)
         (fields : list (string * JsValue)) (w : World S)
         (resp : ListResponse) (s' : S),
    events_list api (oauth2Client this) (list_params_of fields (clock w))
      (remote w) = (Returned resp, s') ->
    exists body,
      fst (CallToolRequest_handler api this
             (mkRequest "list_events" (JObj fields)) w) =
      Returned (mkToolResult [ mkContentItem "text" ("[" ++ body ++ "]") ] None).
Proof.
  intros S api this fields w resp s' Hcall.
  rewrite call_list_events_object, Hcall. cbn [fst].
  unfold list_success, JSON_stringify_2.
  destruct (json_serialize_array_brackets EmptyString
              (map view_of_event
                 match items resp with
                 | Have l => l
                 | Undefined | Null => []
                 end)) as [body Hb].
  rewrite Hb. exists body. reflexivity.
Qed.

Lemma list_events_text_is_json_array_witness :
  exists body,
    fst (CallToolRequest_handler open_api server_authorized
           (mkRequest "list_events" (JObj []))
           (mkWorld
              [ mkRemoteEvent (Have "e1") Undefined Undefined Undefined
                  Undefined Undefined ]
              [] "2024-01-01T09:00:00.000Z")) =
    Returned (mkToolResult [ mkContentItem "text" ("[" ++ body ++ "]") ] None).
Proof.
  apply (list_events_text_is_json_array _ open_api server_authorized []
           (mkWorld
              [ mkRemoteEvent (Have "e1") Undefined Undefined Undefined
                  Undefined Undefined ]
              [] "2024-01-01T09:00:00.000Z")
           (mkListResponse
              (Have [ mkRemoteEvent (Have "e1") Undefined Undefined Undefined
                        Undefined Undefined ]))
           [ mkRemoteEvent (Have "e1") Undefined Undefined Undefined
               Undefined Undefined ]).
  reflexivity.
Defined.

(** ** Catalog and switch *)

(** The catalog and the switch agree on the tool names: a name the catalog
    lists is run by one of the three handlers, and a name it does not list
    is answered with the unknown-tool error, the world untouched. *)
Theorem catalog_matches_switch :
  forall (S : Type) (api : GoogleApi S) (this : Server)
         (nm : string) (args : JsValue) (w : World S),
    (In nm (map name ListToolsRequest_handler) ->
     dispatch api this nm args = getAuthUrl api this \/
     dispatch api this nm args = listEvents api this args \/
     dispatch api this nm args = createEvent api this args) /\
    (~ In nm (map name ListToolsRequest_handler) ->
     CallToolRequest_handler api this (mkRequest nm args) w =
     (Returned
        (mkToolResult [ mkContentItem "text" ("Error: Unknown tool: " ++ nm) ]
           (Some true)), w)).
Proof.
  intros S api this nm args w.
  destruct (dispatch_cases api this nm args)
    as [[Hn Hd] | [[Hn Hd] | [[Hn Hd] | [H1 [H2 [H3 Hd]]]]]].
  - split; [intros _; left; exact Hd|].
    intros Hnot. exfalso. apply Hnot. subst nm. cbn. auto.
  - split; [intros _; right; left; exact Hd|].
    intros Hnot. exfalso. apply Hnot. subst nm. cbn. auto.
  - split; [intros _; right; right; exact Hd|].
    intros Hnot. exfalso. apply Hnot. subst nm. cbn. auto.
  - split.
    + cbn. intros [H | [H | [H | []]]]; congruence.
    + intros _. rewrite handler_unfold. cbn [params_name params_arguments].
      rewrite Hd. reflexivity.
Qed.

Lemma catalog_matches_switch_witness :
  (dispatch open_api server_authorized "create_event" (JObj [])
   = getAuthUrl open_api server_authorized \/
   dispatch open_api server_authorized "create_event" (JObj [])
   = listEvents open_api server_authorized (JObj []) \/
   dispatch open_api server_authorized "create_event" (JObj [])
   = createEvent open_api server_authorized (JObj [])) /\
  CallToolRequest_handler open_api server_authorized
    (mkRequest "List_Events" (JObj [])) world0 =
  (Returned
     (mkToolResult [ mkContentItem "text" "Error: Unknown tool: List_Events" ]
        (Some true)), world0).
Proof.
  split.
  - apply (proj1 (catalog_matches_switch _ open_api server_authorized
                    "create_event" (JObj []) world0)).
    cbn. auto.
  - apply (proj2 (catalog_matches_switch _ open_api server_authorized
                    "List_Events" (JObj []) world0)).
    cbn. intros [H | [H | [H | []]]]; discriminate.
Defined.

(** Every default the catalog advertises is the one the handler applies:
    when the arguments object lacks a property for which the schema of
    [list_events] or [create_event] declares a default, the call sent to the
    client carries exactly the declared value under that name. *)
Theorem advertised_defaults_are_applied :
  forall (S : Type) (api : GoogleApi S) (this : Server)
         (fields : list (string * JsValue)) (w : World S)
         (prop : string) (d : JsValue),
    lookup prop fields = JUndefined ->
    (declared_default "list_events" prop = Some d ->
     exists p,
       calls (snd (CallToolRequest_handler api this
                     (mkRequest "list_events" (JObj fields)) w)) =
       (calls w ++ [CallList (oauth2Client this) p])%list /\
       list_param_named p prop = d) /\
    (declared_default "create_event" prop = Some d ->
     forall attendees,
       attendees_of_args (lookup "attendees" fields) = Returned attendees ->
       exists p,
         calls (snd (CallToolRequest_handler api this
                       (mkRequest "create_event" (JObj fields)) w)) =
         (calls w ++ [CallInsert (oauth2Client this) p])%list /\
         prop = "calendarId" /\ ip_calendarId p = d).
Proof.
  intros S api this fields w prop d Hmiss. split.
  - intros Hd. exists (list_params_of fields (clock w)). split.
    + rewrite call_list_events_object.
      destruct (events_list api _ _ (remote w)) as [[resp | e] s']; reflexivity.
    + revert Hd. unfold declared_default.
      replace (find_tool "list_events") with (nth_error tools 0) by reflexivity.
      unfold tools. cbn [nth_error inputSchema properties find fst].
      destruct (String.eqb_spec "calendarId" prop) as [<- | H1].
      { cbn [prop_default]. intros H; inversion H.
        unfold list_param_named, list_params_of.
        cbn [String.eqb Ascii.eqb Bool.eqb lp_calendarId].
        rewrite Hmiss. reflexivity. }
      destruct (String.eqb_spec "maxResults" prop) as [<- | H2].
      { cbn [prop_default]. intros H; inversion H.
        unfold list_param_named, list_params_of.
        cbn [String.eqb Ascii.eqb Bool.eqb lp_maxResults].
        rewrite Hmiss. reflexivity. }
      destruct (String.eqb_spec "timeMin" prop) as [<- | H3].
      { cbn [prop_default]. discriminate. }
      destruct (String.eqb_spec "timeMax" prop) as [<- | H4].
      { cbn [prop_default]. discriminate. }
      discriminate.
  - intros Hd attendees Hatt. exists (insert_params_of fields attendees). split.
    + rewrite (call_create_event_object api this fields attendees w Hatt).
      destruct (events_insert api _ _ (remote w)) as [[resp | e] s']; reflexivity.
    + revert Hd. unfold declared_default.
      replace (find_tool "create_event") with (nth_error tools 1) by reflexivity.
      unfold tools. cbn [nth_error inputSchema properties find fst].
      destruct (String.eqb_spec "calendarId" prop) as [<- | H1].
      { cbn [prop_default]. intros H; inversion H. split; [reflexivity|].
        unfold insert_params_of. cbn [ip_calendarId].
        rewrite Hmiss. reflexivity. }
      destruct (String.eqb_spec "summary" prop) as [<- | H2];
        [cbn [prop_default]; discriminate|].
      destruct (String.eqb_spec "description" prop) as [<- | H3];
        [cbn [prop_default]; discriminate|].
      destruct (String.eqb_spec "startDateTime" prop) as [<- | H4];
        [cbn [prop_default]; discriminate|].
      destruct (String.eqb_spec "endDateTime" prop) as [<- | H5];
        [cbn [prop_default]; discriminate|].
      destruct (String.eqb_spec "attendees" prop) as [<- | H6];
        [cbn [prop_default]; discriminate|].
      discriminate.
Qed.

Lemma advertised_defaults_are_applied_witness :
  exists p,
    calls (snd (CallToolRequest_handler open_api server_authorized
                  (mkRequest "list_events" (JObj [("calendarId", JStr "work")]))
                  world0)) =
    (calls world0 ++ [CallList (oauth2Client server_authorized) p])%list /\
    list_param_named p "maxResults" = JNum 10.
Proof.
  apply (proj1 (advertised_defaults_are_applied _ open_api server_authorized
                  [("calendarId", JStr "work")] world0 "maxResults" (JNum 10)
                  eq_refl)).
  reflexivity.
Defined.

(** ** Success comes only from the client *)

(** A calendar tool never reports success on its own: when [list_events] or
    [create_event] returns a result without [isError], the handler has
    issued exactly one call, that call returned, and the result is built
    from its response; the remote state is the one the call left. *)
Theorem calendar_tool_success_means_client_returned :
  forall (S : Type) (api : GoogleApi S) (this : Server)
         (args : JsValue) (w w' : World S) (r : ToolResult),
    isError r = None ->
    (CallToolRequest_handler api this (mkRequest "list_events" args) w
     = (Returned r, w') ->
     exists resp,
       events_list api (oauth2Client this)
         (list_params_of (fields_of args) (clock w)) (remote w)
       = (Returned resp, remote w') /\
       r = list_success resp /\
       calls w' =
       (calls w ++ [CallList (oauth2Client this)
                      (list_params_of (fields_of args) (clock w))])%list) /\
    (CallToolRequest_handler api this (mkRequest "create_event" args) w
     = (Returned r, w') ->
     exists attendees resp,
       attendees_of_args (lookup "attendees" (fields_of args)) = Returned attendees /\
       events_insert api (oauth2Client this)
         (insert_params_of (fields_of args) attendees) (remote w)
       = (Returned resp, remote w') /\
       r = insert_success resp /\
       calls w' =
       (calls w ++ [CallInsert (oauth2Client this)
                      (insert_params_of (fields_of args) attendees)])%list).
Proof.
  intros S api this args w w' r Hok. split.
  - rewrite handler_unfold. cbn [params_name params_arguments]. unfold dispatch.
    cbn [String.eqb Ascii.eqb Bool.eqb].
    destruct (nullish args) eqn:Hn.
    + rewrite (listEvents_nullish api this args w Hn).
      intros H; inversion H; subst r. discriminate.
    + rewrite (listEvents_reads_fields api this args w Hn), listEvents_object.
      cbv zeta.
      destruct (events_list api _ _ (remote w)) as [[resp | e] s'];
        intros H; inversion H; subst.
      * exists resp. repeat split.
      * discriminate.
  - rewrite handler_unfold. cbn [params_name params_arguments]. unfold dispatch.
    cbn [String.eqb Ascii.eqb Bool.eqb].
    destruct (nullish args) eqn:Hn.
    + rewrite (createEvent_nullish api this args w Hn).
      intros H; inversion H; subst r. discriminate.
    + rewrite (createEvent_reads_fields api this args w Hn).
      destruct (attendees_of_args (lookup "attendees" (fields_of args)))
        as [att | e0] eqn:Hatt.
      * rewrite (createEvent_object api this _ att w Hatt). cbv zeta.
        destruct (events_insert api _ _ (remote w)) as [[resp | e] s'] eqn:Hins;
          intros H; inversion H; subst.
        -- exists att, resp.
           split; [reflexivity | split; [exact Hins | split; reflexivity]].
        -- discriminate.
      * rewrite (createEvent_bad_attendees api this _ e0 w Hatt).
        intros H; inversion H; subst r. discriminate.
Qed.

Lemma calendar_tool_success_means_client_returned_witness :
  exists resp,
    events_list open_api (oauth2Client server_authorized)
      (list_params_of (fields_of (JObj [])) (clock world0)) (remote world0)
    = (Returned resp,
       remote (after_call world0 (CallList client_authorized (list_params_of [] (clock world0))) [])) /\
    mkToolResult [ mkContentItem "text" "[]" ] None = list_success resp /\
    calls (after_call world0 (CallList client_authorized (list_params_of [] (clock world0))) []) =
    (calls world0 ++ [CallList (oauth2Client server_authorized)
                        (list_params_of (fields_of (JObj [])) (clock world0))])%list.
Proof.
  apply (proj1 (calendar_tool_success_means_client_returned _ open_api
                  server_authorized (JObj []) world0
                  (after_call world0 (CallList client_authorized (list_params_of [] (clock world0))) [])
                  (mkToolResult [ mkContentItem "text" "[]" ] None)
                  eq_refl)).
  reflexivity.
Defined.

Lemma calendar_tools_fail_when_client_rejects_witness :
  exists t w',
    CallToolRequest_handler guarded_api server_configured
      (mkRequest "create_event" (JObj [("summary", JStr "S")])) world0 =
    (Returned (mkToolResult [ mkContentItem "text" t ] (Some true)), w') /\
    remote w' = remote world0.
Proof.
  apply (calendar_tools_fail_when_client_rejects guarded_api server_configured
           [("summary", JStr "S")] world0).
  - intros c p s H. cbn. rewrite H. eexists. reflexivity.
  - intros c p s H. cbn. rewrite H. eexists. reflexivity.
  - reflexivity.
  - right. reflexivity.
Defined.
